(** * icc_wcs_vcgt: converting WCS calibration data to a VCGT tag

    A shallow embedding of [icc_wcs_vcgt.py] and the proofs of its
    specification.  Python [bytes] are lists of bytes, Python integers are
    [Z] (unbounded), floats are IEEE binary64 values in the [SpecFloat]
    model, a [dict] is an insertion-ordered association list, and every
    call that can raise returns a [result]. *)

From Stdlib Require Import ZArith List String Strings.Byte Lia Bool.
From Stdlib Require Import Floats.SpecFloat.
Import ListNotations.
Open Scope Z_scope.

(** ** Bytes, lengths and slices *)

Definition bytes := list byte.

Definition b (s : string) : bytes := list_byte_of_string s.

Definition bytes_eq_dec : forall x y : bytes, {x = y} + {x <> y} :=
  list_eq_dec Byte.byte_eq_dec.

Definition bytes_eqb (x y : bytes) : bool :=
  if bytes_eq_dec x y then true else false.

Definition len {A} (l : list A) : Z := Z.of_nat (List.length l).

(** [data[lo:hi]] for the non-negative bounds the program uses: Python clamps
    both bounds to the length and gives the empty sequence when [hi <= lo]. *)
Definition slice {A} (lo hi : Z) (data : list A) : list A :=
  firstn (Z.to_nat (hi - lo)) (skipn (Z.to_nat lo) data).

Definition byte_to_Z (x : byte) : Z := Z.of_N (Byte.to_N x).

Definition byte_of_Z (z : Z) : byte :=
  match Byte.of_N (Z.to_N (z mod 256)) with
  | Some x => x
  | None => x00
  end.

(** Big-endian encoding of [z] on [n] bytes and its decoding. *)
Fixpoint int_to_bytes (n : nat) (z : Z) : bytes :=
  match n with
  | O => []
  | S n' => int_to_bytes n' (z / 256) ++ [byte_of_Z (z mod 256)]
  end.

Definition int_from_bytes (bs : bytes) : Z :=
  fold_left (fun acc x => acc * 256 + byte_to_Z x) bs 0.

(** ** Exceptions and results *)

Inductive exn : Set :=
| StructError        (* struct.error *)
| AssertionError
| KeyError
| ValueError
| OverflowError
| UnicodeError       (* bytes.decode *)
| ParseError.        (* xml.etree.ElementTree.ParseError *)

Inductive result (A : Type) : Type :=
| Ok (a : A)
| Raise (e : exn).
Arguments Ok {A} a.
Arguments Raise {A} e.

Definition bind {A B} (m : result A) (k : A -> result B) : result B :=
  match m with
  | Ok a => k a
  | Raise e => Raise e
  end.

Notation "x <- m ;; k" := (bind m (fun x => k))
  (at level 61, m at next level, right associativity).
Notation "' p <- m ;; k" := (bind m (fun p => k))
  (at level 61, p pattern, m at next level, right associativity).

(** [assert c]. *)
Definition assert (c : bool) : result unit :=
  if c then Ok tt else Raise AssertionError.

(** ** The [struct] module, for the big-endian formats the program uses *)

Module struct.

(** Format items of a [">"] format: standard sizes, no alignment. *)
Inductive item : Set :=
| FmtI               (* I  : unsigned 32-bit integer *)
| FmtS (n : nat)     (* ns : n bytes *)
| FmtX (n : nat).    (* nx : n pad bytes *)

Inductive value : Set :=
| VInt (z : Z)
| VBytes (bs : bytes).

Definition item_size (it : item) : Z :=
  match it with
  | FmtI => 4
  | FmtS n => Z.of_nat n
  | FmtX n => Z.of_nat n
  end.

Fixpoint calcsize (fmt : list item) : Z :=
  match fmt with
  | [] => 0
  | it :: fmt' => item_size it + calcsize fmt'
  end.

Definition in_u32 (z : Z) : bool := (0 <=? z) && (z <? 2 ^ 32).

(** [struct.pack]: an integer outside the range of [I], or arguments that
    do not match the format, raise [struct.error]; a bytes argument of
    [ns] is truncated or padded with zero bytes to [n] bytes. *)
Fixpoint pack (fmt : list item) (args : list value) : result bytes :=
  match fmt with
  | [] =>
      match args with
      | [] => Ok []
      | _ :: _ => Raise StructError
      end
  | FmtX n :: fmt' =>
      rest <- pack fmt' args ;;
      Ok (repeat x00 n ++ rest)
  | FmtI :: fmt' =>
      match args with
      | VInt z :: args' =>
          if in_u32 z
          then rest <- pack fmt' args' ;; Ok (int_to_bytes 4 z ++ rest)
          else Raise StructError
      | _ => Raise StructError
      end
  | FmtS n :: fmt' =>
      match args with
      | VBytes bs :: args' =>
          rest <- pack fmt' args' ;;
          Ok (firstn n bs ++ repeat x00 (n - List.length bs) ++ rest)
      | _ => Raise StructError
      end
  end.

Fixpoint unpack_fields (fmt : list item) (data : bytes) : list value :=
  match fmt with
  | [] => []
  | FmtI :: fmt' =>
      VInt (int_from_bytes (firstn 4 data)) :: unpack_fields fmt' (skipn 4 data)
  | FmtS n :: fmt' =>
      VBytes (firstn n data) :: unpack_fields fmt' (skipn n data)
  | FmtX n :: fmt' => unpack_fields fmt' (skipn n data)
  end.

(** [struct.unpack_from(fmt, buffer, offset)]: raises [struct.error] when
    fewer than [calcsize fmt] bytes are left from [offset].  The program
    only passes non-negative offsets. *)
Definition unpack_from (fmt : list item) (buffer : bytes) (offset : Z)
  : result (list value) :=
  if (0 <=? offset) && (offset + calcsize fmt <=? len buffer)
  then Ok (unpack_fields fmt (skipn (Z.to_nat offset) buffer))
  else Raise StructError.

(** Arguments that [pack] stores unchanged: a bytes argument of [ns] has
    exactly [n] bytes. *)
Fixpoint canonical (fmt : list item) (args : list value) : Prop :=
  match fmt, args with
  | [], [] => True
  | FmtX _ :: fmt', _ => canonical fmt' args
  | FmtI :: fmt', VInt _ :: args' => canonical fmt' args'
  | FmtS n :: fmt', VBytes bs :: args' =>
      List.length bs = n /\ canonical fmt' args'
  | _, _ => False
  end.

End struct.
Import struct.

(** ** Insertion-ordered dictionaries *)

Section Dict.
Context {K V : Type} (K_eq_dec : forall x y : K, {x = y} + {x <> y}).

Definition dict := list (K * V).

(** [d.get(k)] *)
Fixpoint dict_get (k : K) (d : dict) : option V :=
  match d with
  | [] => None
  | (k', v) :: d' => if K_eq_dec k k' then Some v else dict_get k d'
  end.

(** [k in d] *)
Definition dict_mem (k : K) (d : dict) : bool :=
  match dict_get k d with
  | Some _ => true
  | None => false
  end.

(** [d[k] = v]: an existing key keeps its position, a new one goes last. *)
Fixpoint dict_set (k : K) (v : V) (d : dict) : dict :=
  match d with
  | [] => [(k, v)]
  | (k', v') :: d' =>
      if K_eq_dec k k' then (k', v) :: d' else (k', v') :: dict_set k v d'
  end.

(** [d[k]] *)
Definition dict_item (k : K) (d : dict) : result V :=
  match dict_get k d with
  | Some v => Ok v
  | None => Raise KeyError
  end.
End Dict.

(** ** Header check and tag table *)

(** The unsigned 32-bit big-endian integer at [offset]. *)
Definition u32_at (data : bytes) (offset : Z) : Z :=
  int_from_bytes (slice offset (offset + 4) data).

Definition header_fmt : list item :=
  [FmtI; FmtX 4; FmtI; FmtS 4; FmtS 4; FmtX 16; FmtS 4; FmtS 4; FmtX 36; FmtS 4].

Definition check_signature (prof_data : bytes) : result bool :=
  fields <- unpack_from header_fmt prof_data 0 ;;
  match fields with
  | [VInt prof_size; VInt prof_ver; VBytes prof_dev; VBytes prof_col;
     VBytes prof_sig; VBytes prof_plat; VBytes prof_creator] =>
      if negb (prof_size =? len prof_data) then Ok false else
      if negb (prof_size mod 4 =? 0) then Ok false else
      if negb (bytes_eqb prof_sig (b "acsp")) then Ok false else
      if prof_ver >? 0x04400000 then Ok false else
      if negb (bytes_eqb prof_dev (b "mntr")) then Ok false else
      if negb (bytes_eqb prof_col (b "RGB ")) then Ok false else
      if negb (bytes_eqb prof_plat (b "MSFT")) then Ok false else
      if negb (bytes_eqb prof_creator (b "MSFT")) then Ok false else
      Ok true
  | _ => Raise StructError
  end.

Definition tags_t := @dict bytes bytes.

Fixpoint parse_tags_loop (prof_data : bytes) (n : nat) (i : Z) (res : tags_t)
  : result tags_t :=
  match n with
  | O => Ok res
  | S n' =>
      fields <- unpack_from [FmtS 4; FmtI; FmtI] prof_data (132 + 12 * i) ;;
      match fields with
      | [VBytes tag_sig; VInt tag_offset; VInt tag_size] =>
          parse_tags_loop prof_data n' (i + 1)
            (dict_set bytes_eq_dec tag_sig
               (slice tag_offset (tag_offset + tag_size) prof_data) res)
      | _ => Raise StructError
      end
  end.

Definition parse_tags (prof_data : bytes) : result tags_t :=
  fields <- unpack_from [FmtI] prof_data 128 ;;
  match fields with
  | [VInt tag_count] => parse_tags_loop prof_data (Z.to_nat tag_count) 0 []
  | _ => Raise StructError
  end.

Definition parse_wcs (wcs_data : bytes) : result (bytes * bytes * bytes) :=
  fields <- unpack_from [FmtS 4; FmtX 4; FmtI; FmtI; FmtI; FmtI; FmtI; FmtI]
              wcs_data 0 ;;
  match fields with
  | [VBytes tag_sig; VInt cdmp_ofs; VInt cdmp_size; VInt camp_ofs;
     VInt camp_size; VInt gmmp_ofs; VInt gmmp_size] =>
      _ <- assert (bytes_eqb tag_sig (b "MS10")) ;;
      let cdmp_data := slice cdmp_ofs (cdmp_ofs + cdmp_size) wcs_data in
      let camp_data := slice camp_ofs (camp_ofs + camp_size) wcs_data in
      let gmmp_data := slice gmmp_ofs (gmmp_ofs + gmmp_size) wcs_data in
      Ok (cdmp_data, camp_data, gmmp_data)
  | _ => Raise StructError
  end.

(** ** Element trees

    The part of [xml.etree.ElementTree] the program reads: an element has a
    tag (in the form [{uri}local] when it is in a namespace), a dictionary
    of attributes and its child elements in document order. *)

Local Unset Elimination Schemes.
Inductive Element : Type :=
| Elem (tag : string) (attrib : @dict string string) (children : list Element).
Local Set Elimination Schemes.

Definition tag (e : Element) : string :=
  match e with Elem t _ _ => t end.
Definition attrib (e : Element) : @dict string string :=
  match e with Elem _ a _ => a end.
Definition children (e : Element) : list Element :=
  match e with Elem _ _ c => c end.

Definition cdm : string :=
  "http://schemas.microsoft.com/windows/2005/02/color/ColorDeviceModel".
Definition cal : string :=
  "http://schemas.microsoft.com/windows/2007/11/color/Calibration".
Definition wcs : string :=
  "http://schemas.microsoft.com/windows/2005/02/color/WcsCommonProfileTypes".

(** The tag a prefixed name [prefix:local] of a path stands for. *)
Definition qname (uri local : string) : string :=
  ("{" ++ uri ++ "}" ++ local)%string.

(** One step [name] of a path: the children with that tag of every element
    selected so far, in document order. *)
Definition select_child (name : string) (selected : list Element)
  : list Element :=
  flat_map (fun e => filter (fun c => String.eqb (tag c) name) (children e))
    selected.

(** [elem.find(path, ns)] for a path [name/.../name]: the first element the
    path selects, or [None]. *)
Definition find (path : list string) (elem : Element) : option Element :=
  hd_error (fold_left (fun selected name => select_child name selected)
              path [elem]).

(** ** Floats *)

Definition float := spec_float.
Definition prec : Z := 53.
Definition emax : Z := 1024.

Definition float_mul (x y : float) : float := SFmul prec emax x y.

(** [float(z)] of an integer, rounded to nearest. *)
Definition float_of_int (z : Z) : float := binary_normalize prec emax z 0 false.

(** [int(x)]: truncation toward zero; infinities and NaN raise. *)
Definition int_of_float (x : float) : result Z :=
  match x with
  | S754_zero _ => Ok 0
  | S754_infinity _ => Raise OverflowError
  | S754_nan => Raise ValueError
  | S754_finite s m e =>
      let a := Z.shiftl (Z.pos m) e in
      Ok (if s then - a else a)
  end.

Definition calib_t := @dict string (list float).

(** ** VCGT encoder *)

Fixpoint generate_vcgt_values (vs : list float) (data : bytes) : result bytes :=
  match vs with
  | [] => Ok data
  | v :: vs' =>
      n <- int_of_float (float_mul v (float_of_int 65535)) ;;
      word <- pack [FmtI] [VInt n] ;;
      generate_vcgt_values vs' (data ++ word)
  end.

Fixpoint generate_vcgt_loop (chans : list string) (calib_data : calib_t)
  (data : bytes) : result bytes :=
  match chans with
  | [] => Ok data
  | i :: chans' =>
      vs <- dict_item string_dec i calib_data ;;
      data' <- generate_vcgt_values vs data ;;
      generate_vcgt_loop chans' calib_data data'
  end.

Definition vcgt_prefix : bytes :=
  b "vcgt" ++ [x00; x00; x00; x00; x00; x00; x00; x01].

Definition generate_vcgt (calib_data : calib_t) : result bytes :=
  generate_vcgt_loop ["r"; "g"; "b"]%string calib_data vcgt_prefix.

(** ** Profile builder *)

(** First loop of [generate_body]: the tag table. *)
Fixpoint generate_body_table (items : tags_t) (data : bytes) (offset : Z)
  : result (bytes * Z) :=
  match items with
  | [] => Ok (data, offset)
  | (tag, val) :: items' =>
      entry <- pack [FmtS 4; FmtI; FmtI]
                 [VBytes tag; VInt offset; VInt (len val)] ;;
      let size := len val + 3 in
      let size := size - size mod 4 in
      generate_body_table items' (data ++ entry) (offset + size)
  end.

(** Second loop of [generate_body]: the tag data, each padded to 4 bytes. *)
Fixpoint generate_body_data (vals : list bytes) (data : bytes) : bytes :=
  match vals with
  | [] => data
  | val :: vals' =>
      let data := data ++ val in
      let pad_size := 4 - len val mod 4 in
      generate_body_data vals'
        (if pad_size <? 4 then data ++ repeat x00 (Z.to_nat pad_size) else data)
  end.

Definition generate_body (tags : tags_t) : result bytes :=
  data <- pack [FmtI] [VInt (len tags)] ;;
  let offset := 132 + len tags * 12 in
  '(data, _) <- generate_body_table tags data offset ;;
  Ok (generate_body_data (map snd tags) data).

Definition create_profile (header body : bytes) : result bytes :=
  size <- pack [FmtI] [VInt (len body + 128)] ;;
  Ok (size ++ skipn 4 header ++ body).

(** ** Running the program *)

Inductive status : Set :=
| Returned (code : Z)
| Uncaught (e : exn).

(** What a run of [main] leaves behind: how it ended, the lines it printed,
    and the output file ([None] when it was never opened; opening it for
    writing empties it before anything is written). *)
Record outcome : Set := mkOutcome {
  ended : status;
  printed : list string;
  output_file : option bytes
}.

Section Conversion.

(** The library calls of [extract_calib_data]: [bytes.decode("utf16")],
    [ET.fromstring] and [float] of a string. *)
Variable decode_utf16 : bytes -> result string.
Variable ET_fromstring : string -> result Element.
Variable float_of_str : string -> result float.

(** [float(calib_tag.get(x, d))] *)
Definition get_float (calib_tag : @dict string string) (x : string) (d : Z)
  : result float :=
  match dict_get string_dec x calib_tag with
  | Some s => float_of_str s
  | None => Ok (float_of_int d)
  end.

Fixpoint get_floats (calib_tag : @dict string string)
  (keys : list (string * Z)) : result (list float) :=
  match keys with
  | [] => Ok []
  | (x, d) :: keys' =>
      v <- get_float calib_tag x d ;;
      vs <- get_floats calib_tag keys' ;;
      Ok (v :: vs)
  end.

(** [set(keys).difference(allowed)] *)
Definition difference (keys allowed : list string) : list string :=
  filter (fun k => negb (existsb (String.eqb k) allowed)) keys.

Definition curve_keys : list (string * Z) :=
  [("Gamma", 1); ("Offset1", 0); ("Gain", 1)]%string.

(** The body of the loop of [extract_calib_data]: the curve of the channel
    whose element has the tag [tag]. *)
Definition extract_curve (calib_data_tag : Element) (tag : string)
  : result (list float) :=
  calib_tag <-
    match find [tag] calib_data_tag with
    | None => Ok []
    | Some calib_tag =>
        _ <- assert (len (difference (map fst (attrib calib_tag))
                            ["Gamma"; "Gain"; "Offset1"]%string) =? 0) ;;
        Ok (attrib calib_tag)
    end ;;
  get_floats calib_tag curve_keys.

Fixpoint extract_calib_loop (calib_data_tag : Element)
  (chans : list (string * string)) (calib_data : calib_t) : result calib_t :=
  match chans with
  | [] => Ok calib_data
  | (i, tag) :: chans' =>
      curve <- extract_curve calib_data_tag tag ;;
      extract_calib_loop calib_data_tag chans'
        (dict_set string_dec i curve calib_data)
  end.

Definition curves_path : list string :=
  [qname cdm "Calibration"; qname cal "AdapterGammaConfiguration";
   qname cal "ParameterizedCurves"].

Definition channels : list (string * string) :=
  [("r", qname wcs "RedTRC"); ("g", qname wcs "GreenTRC");
   ("b", qname wcs "BlueTRC")]%string.

Definition extract_calib_data (cdmp_data : bytes) : result calib_t :=
  text <- decode_utf16 cdmp_data ;;
  cdmp_root <- ET_fromstring text ;;
  match find curves_path cdmp_root with
  | None => Raise AssertionError
  | Some calib_data_tag => extract_calib_loop calib_data_tag channels []
  end.

Definition vcgt : bytes := b "vcgt".
Definition MS00 : bytes := b "MS00".

Definition main (prof_data : bytes) : outcome :=
  match check_signature prof_data with
  | Raise e => mkOutcome (Uncaught e) [] None
  | Ok false => mkOutcome (Returned 1) ["Invalid ICC profile"%string] None
  | Ok true =>
  match parse_tags prof_data with
  | Raise e => mkOutcome (Uncaught e) [] None
  | Ok tags =>
  if dict_mem bytes_eq_dec vcgt tags
  then mkOutcome (Returned 1) ["Profile already has VCGT"%string] None
  else
  match dict_get bytes_eq_dec MS00 tags with
  | None => mkOutcome (Returned 1) ["WCS tag is not present"%string] None
  | Some wcs_data =>
  match
    '(cdmp_data, _, _) <- parse_wcs wcs_data ;;
    calib_data <- extract_calib_data cdmp_data ;;
    vcgt_data <- generate_vcgt calib_data ;;
    Ok (dict_set bytes_eq_dec vcgt vcgt_data tags)
  with
  | Raise e => mkOutcome (Uncaught e) [] None
  | Ok tags =>
      (* the output file is open, and empty, while its content is built *)
      match
        body <- generate_body tags ;;
        create_profile (slice 0 128 prof_data) body
      with
      | Raise e => mkOutcome (Uncaught e) [] (Some [])
      | Ok data => mkOutcome (Returned 0) [] (Some data)
      end
  end end end end.

End Conversion.

(** ** Sample inputs

    A 176-byte monitor profile written by WCS whose only tag is the WCS tag,
    documents for its ColorDeviceModel block, and stand-ins for the three
    library calls that read them. *)

Definition float_2_2 : float := S754_finite false 4953959590107546 (-51).

Definition sample_header (size : Z) : bytes :=
  int_to_bytes 4 size ++ repeat x00 4 ++ int_to_bytes 4 0x04400000
  ++ b "mntr" ++ b "RGB " ++ repeat x00 16 ++ b "acsp" ++ b "MSFT"
  ++ repeat x00 36 ++ b "MSFT" ++ repeat x00 44.

Definition sample_wcs (signature : string) : bytes :=
  b signature ++ repeat x00 4
  ++ int_to_bytes 4 32 ++ int_to_bytes 4 0
  ++ int_to_bytes 4 32 ++ int_to_bytes 4 0
  ++ int_to_bytes 4 32 ++ int_to_bytes 4 0.

Definition sample_profile_with (wcs_data : bytes) : bytes :=
  sample_header 176 ++ int_to_bytes 4 1
  ++ b "MS00" ++ int_to_bytes 4 144 ++ int_to_bytes 4 32
  ++ wcs_data.

Definition sample_profile : bytes := sample_profile_with (sample_wcs "MS10").

Definition sample_profile_bad_wcs : bytes :=
  sample_profile_with (sample_wcs "MS11").

Definition sample_profile_no_tags : bytes :=
  sample_header 132 ++ int_to_bytes 4 0.

Definition sample_curves (curves : list Element) : Element :=
  Elem (qname cal "ParameterizedCurves") [] curves.

Definition sample_document_with (config : list Element) : Element :=
  Elem (qname cdm "ColorDeviceModel") []
    [Elem (qname cdm "Calibration") []
       [Elem (qname cal "AdapterGammaConfiguration") [] config]].

(** Red has a gamma of 2.2; green and blue have no element. *)
Definition sample_red : Element :=
  Elem (qname wcs "RedTRC") [("Gamma", "2.2")]%string [].

Definition sample_document : Element :=
  sample_document_with [sample_curves [sample_red]].

Definition sample_document_no_curves : Element := sample_document_with [].

Definition sample_green_slope : Element :=
  Elem (qname wcs "GreenTRC") [("Gamma", "2.2"); ("Slope", "1")]%string [].

Definition sample_document_slope : Element :=
  sample_document_with [sample_curves [sample_red; sample_green_slope]].

Definition sample_decode (_ : bytes) : result string := Ok ""%string.
Definition sample_fromstring (document : Element) (_ : string)
  : result Element := Ok document.
Definition sample_float (s : string) : result float :=
  if String.eqb s "2.2" then Ok float_2_2 else Raise ValueError.

Definition sample_main (document : Element) : bytes -> outcome :=
  main sample_decode (sample_fromstring document) sample_float.

Definition sample_tags : tags_t := [(b "MS00", sample_wcs "MS10")].

Definition sample_output : bytes :=
  Eval vm_compute in
    match output_file (sample_main sample_document sample_profile) with
    | Some data => data
    | None => []
    end.

(** ** The statements of the specification *)

(** The header fields at their offsets, as the header check reads them. *)
Definition header_checks (d : bytes) : bool :=
  (u32_at d 0 =? len d) && (u32_at d 0 mod 4 =? 0)
  && bytes_eqb (slice 36 40 d) (b "acsp")
  && (u32_at d 8 <=? 0x04400000)
  && bytes_eqb (slice 12 16 d) (b "mntr")
  && bytes_eqb (slice 16 20 d) (b "RGB ")
  && bytes_eqb (slice 40 44 d) (b "MSFT")
  && bytes_eqb (slice 80 84 d) (b "MSFT").

(** The eight conditions of the header check. *)
Definition header_accepts (d : bytes) : Prop :=
  u32_at d 0 = len d /\
  u32_at d 0 mod 4 = 0 /\
  slice 36 40 d = b "acsp" /\
  u32_at d 8 <= 0x04400000 /\
  slice 12 16 d = b "mntr" /\
  slice 16 20 d = b "RGB " /\
  slice 40 44 d = b "MSFT" /\
  slice 80 84 d = b "MSFT".

(** The layout [generate_body] produces: the size a tag takes with its
    padding, the tag table, and the padded tag data. *)
Definition pad4 (n : Z) : Z := (n + 3) - (n + 3) mod 4.

Definition padded (val : bytes) : bytes :=
  val ++ (if 4 - len val mod 4 <? 4
          then repeat x00 (Z.to_nat (4 - len val mod 4)) else []).

Fixpoint data_len (items : tags_t) : Z :=
  match items with
  | [] => 0
  | (_, val) :: items' => pad4 (len val) + data_len items'
  end.

Fixpoint table_bytes (items : tags_t) (offset : Z) : bytes :=
  match items with
  | [] => []
  | (tag, val) :: items' =>
      (tag ++ int_to_bytes 4 offset ++ int_to_bytes 4 (len val))
      ++ table_bytes items' (offset + pad4 (len val))
  end.

Fixpoint table_ok (items : tags_t) (offset : Z) : Prop :=
  match items with
  | [] => True
  | (tag, val) :: items' =>
      in_u32 offset = true /\ in_u32 (len val) = true /\
      table_ok items' (offset + pad4 (len val))
  end.

Fixpoint data_bytes (vals : list bytes) : bytes :=
  match vals with
  | [] => []
  | val :: vals' => padded val ++ data_bytes vals'
  end.

(** A tag table as [parse_tags] builds it: distinct 4-byte signatures. *)
Definition tags_wf (tags : tags_t) : Prop :=
  NoDup (map fst tags) /\ Forall (fun kv => List.length (fst kv) = 4%nat) tags.

(** The integer the encoder stores for a value: [int(v * 65535)], which
    [struct.pack] accepts when it fits 32 unsigned bits. *)
Definition scaled (v : float) : result Z :=
  n <- int_of_float (float_mul v (float_of_int 65535)) ;;
  if in_u32 n then Ok n else Raise StructError.

Fixpoint scaled_all (vs : list float) : result (list Z) :=
  match vs with
  | [] => Ok []
  | v :: vs' => n <- scaled v ;; ns <- scaled_all vs' ;; Ok (n :: ns)
  end.

(** The 32-bit big-endian words of a list of integers. *)
Definition words (ns : list Z) : bytes := List.concat (map (int_to_bytes 4) ns).

Definition float_0 : float := S754_zero false.
Definition float_1 : float := S754_finite false 4503599627370496 (-52).

(** The curve of a channel without an element. *)
Definition identity_curve : list float := [float_1; float_0; float_1].

(** [-2 ** -17], whose product with 65535 lies between -1 and 0. *)
Definition float_tiny_negative : float :=
  S754_finite true 4503599627370496 (-69).

(** A run that ends with an exception before the output file is opened. *)
Definition aborts (o : outcome) : Prop :=
  exists e, o = mkOutcome (Uncaught e) [] None.

(** The fields of the [i]-th record of the tag table of a profile, and the
    bytes the record designates. *)
Definition entry_sig (d : bytes) (i : Z) : bytes :=
  slice (132 + 12 * i) (136 + 12 * i) d.
Definition entry_offset (d : bytes) (i : Z) : Z := u32_at d (136 + 12 * i).
Definition entry_size (d : bytes) (i : Z) : Z := u32_at d (140 + 12 * i).
Definition entry_data (d : bytes) (i : Z) : bytes :=
  slice (entry_offset d i) (entry_offset d i + entry_size d i) d.

(** The data of the last of the records [i], ..., [i + n - 1] whose signature
    is [k]. *)
Fixpoint lookup_entries (d : bytes) (i : Z) (n : nat) (k : bytes)
  : option bytes :=
  match n with
  | O => None
  | S n' =>
      match lookup_entries d (i + 1) n' k with
      | Some v => Some v
      | None =>
          if bytes_eq_dec k (entry_sig d i) then Some (entry_data d i)
          else None
      end
  end.

(** The attributes a channel element may carry. *)
Definition allowed_keys : list string := ["Gamma"; "Gain"; "Offset1"]%string.

(** A 100-byte input, too short for a tag table, and a profile whose table
    announces more records than it holds. *)
Definition sample_profile_short : bytes := repeat x00 100.

Definition sample_profile_truncated : bytes :=
  sample_header 132 ++ int_to_bytes 4 3.

(** A profile whose table has two records with the signature [MS00], and
    one that has a [vcgt] record. *)
Definition sample_profile_two (sig : string) : bytes :=
  sample_header 188 ++ int_to_bytes 4 2
  ++ b "MS00" ++ int_to_bytes 4 180 ++ int_to_bytes 4 4
  ++ b sig ++ int_to_bytes 4 156 ++ int_to_bytes 4 32
  ++ sample_wcs "MS10".

(** A table with a tag of five bytes, its body, and the profile created
    from them and the sample header. *)
Definition sample_tags_odd : tags_t :=
  [(b "MS00", sample_wcs "MS10"); (b "desc", b "abcde")].

Definition sample_body_odd : bytes :=
  Eval vm_compute in
    match generate_body sample_tags_odd with
    | Ok body => body
    | Raise _ => []
    end.

Definition sample_created_odd : bytes :=
  Eval vm_compute in
    match create_profile (sample_header 176) sample_body_odd with
    | Ok data => data
    | Raise _ => []
    end.

(** The curves of the sample document. *)
Definition sample_calib : calib_t :=
  [("r", [float_2_2; float_0; float_1]);
   ("g", identity_curve); ("b", identity_curve)]%string.

(** An input of 83 bytes whose size field announces 84. *)
Definition sample_input_83 : bytes := int_to_bytes 4 84 ++ repeat x00 79.

(** A profile whose WCS tag has 8 bytes, and documents whose red channel
    has a gamma that is not a number, or a gamma of 65538. *)
Definition sample_profile_short_wcs : bytes :=
  sample_header 152 ++ int_to_bytes 4 1
  ++ b "MS00" ++ int_to_bytes 4 144 ++ int_to_bytes 4 8
  ++ b "MS11" ++ repeat x00 4.

Definition sample_red_abc : Element :=
  Elem (qname wcs "RedTRC") [("Gamma", "abc")]%string [].

Definition sample_document_abc_slope : Element :=
  sample_document_with [sample_curves [sample_red_abc; sample_green_slope]].

Definition sample_red_big : Element :=
  Elem (qname wcs "RedTRC") [("Gamma", "65538")]%string [].

Definition sample_document_big : Element :=
  sample_document_with [sample_curves [sample_red_big]].

Definition sample_float_wide (s : string) : result float :=
  if String.eqb s "65538" then Ok (float_of_int 65538) else sample_float s.

(** * Proofs *)

(** ** Lists, lengths and slices *)

Lemma len_nonneg {A} (l : list A) : 0 <= len l.
Proof. unfold len; lia. Qed.

Lemma len_app {A} (l1 l2 : list A) : len (l1 ++ l2) = len l1 + len l2.
Proof. unfold len; rewrite length_app; lia. Qed.

Lemma len_cons {A} (a : A) (l : list A) : len (a :: l) = 1 + len l.
Proof. unfold len; simpl List.length; lia. Qed.

Lemma len_repeat {A} (a : A) (n : nat) : len (repeat a n) = Z.of_nat n.
Proof. unfold len; now rewrite repeat_length. Qed.

Lemma firstn_exact {A} (n : nat) (l r : list A) :
  List.length l = n -> firstn n (l ++ r) = l.
Proof.
  intros <-. rewrite firstn_app, Nat.sub_diag, firstn_all. simpl.
  apply app_nil_r.
Qed.

Lemma skipn_exact {A} (n : nat) (l r : list A) :
  List.length l = n -> skipn n (l ++ r) = r.
Proof.
  intros <-. rewrite skipn_app, Nat.sub_diag, skipn_all. reflexivity.
Qed.

Lemma slice_app_mid {A} (pre v post data : list A) (lo hi : Z) :
  lo = len pre -> hi = lo + len v -> data = pre ++ v ++ post ->
  slice lo hi data = v.
Proof.
  intros -> -> ->. unfold slice, len.
  rewrite skipn_exact by lia. apply firstn_exact. lia.
Qed.

Lemma len_slice {A} (lo hi : Z) (data : list A) :
  0 <= lo -> lo <= hi -> hi <= len data -> len (slice lo hi data) = hi - lo.
Proof.
  unfold slice, len. intros. rewrite length_firstn, length_skipn. lia.
Qed.

(** ** Big-endian integers *)

Lemma byte_to_Z_range (x : byte) : 0 <= byte_to_Z x < 256.
Proof.
  unfold byte_to_Z. pose proof (Byte.to_N_bounded x). lia.
Qed.

Lemma byte_to_of_Z (z : Z) : byte_to_Z (byte_of_Z z) = z mod 256.
Proof.
  unfold byte_to_Z, byte_of_Z.
  assert (Hr : 0 <= z mod 256 < 256) by (apply Z.mod_pos_bound; lia).
  destruct (Byte.of_N (Z.to_N (z mod 256))) as [x|] eqn:E.
  - apply Byte.to_of_N in E. rewrite E. lia.
  - apply Byte.of_N_None_iff in E. lia.
Qed.

Lemma length_int_to_bytes (n : nat) (z : Z) : List.length (int_to_bytes n z) = n.
Proof.
  revert z. induction n as [|n IH]; intros z; simpl; [reflexivity|].
  rewrite length_app, IH. simpl. lia.
Qed.

Lemma int_from_bytes_snoc (bs : bytes) (x : byte) :
  int_from_bytes (bs ++ [x]) = int_from_bytes bs * 256 + byte_to_Z x.
Proof. unfold int_from_bytes. now rewrite fold_left_app. Qed.

Lemma int_from_to_bytes (n : nat) (z : Z) :
  int_from_bytes (int_to_bytes n z) = z mod 256 ^ Z.of_nat n.
Proof.
  revert z. induction n as [|n IH]; intros z.
  - simpl. now rewrite Z.mod_1_r.
  - cbn [int_to_bytes]. rewrite int_from_bytes_snoc, IH, byte_to_of_Z.
    assert (0 < 256 ^ Z.of_nat n) by (apply Z.pow_pos_nonneg; lia).
    rewrite Nat2Z.inj_succ, Z.pow_succ_r by lia.
    rewrite Z.rem_mul_r, Z.mod_mod by lia. lia.
Qed.

Lemma in_u32_iff (z : Z) : in_u32 z = true <-> 0 <= z < 2 ^ 32.
Proof. unfold in_u32. rewrite andb_true_iff, Z.leb_le, Z.ltb_lt. tauto. Qed.

Lemma u32_round_trip (z : Z) :
  in_u32 z = true -> int_from_bytes (int_to_bytes 4 z) = z.
Proof.
  intros H%in_u32_iff. rewrite int_from_to_bytes.
  change (256 ^ Z.of_nat 4) with (2 ^ 32). now apply Z.mod_small.
Qed.

Lemma bytes_eqb_eq (x y : bytes) : bytes_eqb x y = true <-> x = y.
Proof.
  unfold bytes_eqb. destruct (bytes_eq_dec x y); split; congruence.
Qed.

(** ** The header check *)

Lemma unpack_from_short (fmt : list item) (d : bytes) (off : Z) :
  len d < off + calcsize fmt -> unpack_from fmt d off = Raise StructError.
Proof.
  intros H. unfold unpack_from.
  destruct (off + calcsize fmt <=? len d) eqn:E; [apply Z.leb_le in E; lia|].
  now rewrite andb_false_r.
Qed.

Lemma unpack_from_fits (fmt : list item) (d : bytes) (off : Z) :
  0 <= off -> off + calcsize fmt <= len d ->
  unpack_from fmt d off = Ok (unpack_fields fmt (skipn (Z.to_nat off) d)).
Proof.
  intros H0 H. unfold unpack_from.
  apply Z.leb_le in H0, H. now rewrite H0, H.
Qed.

Lemma firstn_skipn_slice {A} (n k : nat) (d : list A) :
  firstn n (skipn k d) = slice (Z.of_nat k) (Z.of_nat k + Z.of_nat n) d.
Proof.
  unfold slice. f_equal; [|f_equal]; lia.
Qed.

Lemma check_signature_short (d : bytes) :
  len d < 84 -> check_signature d = Raise StructError.
Proof.
  intros H. unfold check_signature.
  rewrite unpack_from_short; [reflexivity|]. exact H.
Qed.

Lemma check_signature_long (d : bytes) :
  84 <= len d -> check_signature d = Ok (header_checks d).
Proof.
  intros H. unfold check_signature.
  rewrite unpack_from_fits by (try exact H; lia).
  cbn [header_fmt unpack_fields bind].
  repeat rewrite skipn_skipn. cbn [Nat.add Z.to_nat Pos.to_nat Pos.iter_op].
  repeat rewrite firstn_skipn_slice.
  unfold header_checks, u32_at. cbn [Z.of_nat Pos.of_succ_nat Pos.succ Z.add Pos.add].
  destruct (_ =? len d); [|reflexivity].
  destruct (_ mod 4 =? 0); [|reflexivity].
  destruct (bytes_eqb (slice 36 40 d) _); [|reflexivity].
  rewrite Z.gtb_ltb, Z.ltb_antisym.
  destruct (_ <=? 71303168); [|reflexivity].
  destruct (bytes_eqb (slice 12 16 d) _); [|reflexivity].
  destruct (bytes_eqb (slice 16 20 d) _); [|reflexivity].
  destruct (bytes_eqb (slice 40 44 d) _); [|reflexivity].
  destruct (bytes_eqb (slice 80 84 d) _); reflexivity.
Qed.

Lemma header_checks_accepts (d : bytes) :
  header_checks d = true <-> header_accepts d.
Proof.
  unfold header_checks, header_accepts.
  rewrite !andb_true_iff, !bytes_eqb_eq, !Z.eqb_eq, Z.leb_le. tauto.
Qed.

Lemma header_accepts_length (d : bytes) : header_accepts d -> 84 <= len d.
Proof.
  intros (_ & _ & _ & _ & _ & _ & _ & H).
  apply (f_equal (@List.length byte)) in H. unfold slice in H.
  rewrite length_firstn, length_skipn in H.
  change (List.length (b "MSFT")) with 4%nat in H.
  unfold len. lia.
Qed.

Lemma check_signature_accepts_ok (d : bytes) :
  check_signature d = Ok true <-> header_accepts d.
Proof.
  split.
  - intros H. destruct (Z_lt_le_dec (len d) 84) as [Hs|Hl].
    + rewrite check_signature_short in H by exact Hs. discriminate.
    + rewrite check_signature_long in H by exact Hl.
      apply header_checks_accepts. congruence.
  - intros H. rewrite check_signature_long by now apply header_accepts_length.
    f_equal. now apply header_checks_accepts.
Qed.

(** C1, amended: the header check accepts a profile exactly when the declared size is
    the byte length and a multiple of 4, the signature is [acsp], the version
    is at most 0x04400000, the device class is [mntr], the colour space is
    [RGB ], and platform and creator are [MSFT]; on a profile that holds the
    header fields and misses a condition it returns false. *)
Theorem check_signature_accepts_iff (prof_data : bytes) :
  (check_signature prof_data = Ok true <-> header_accepts prof_data) /\
  (84 <= len prof_data -> ~ header_accepts prof_data ->
   check_signature prof_data = Ok false).
Proof.
  split; [apply check_signature_accepts_ok|].
  intros Hl Hn. rewrite check_signature_long by exact Hl. f_equal.
  destruct (header_checks prof_data) eqn:E; [|reflexivity].
  apply header_checks_accepts in E. contradiction.
Qed.

(** C1, as stated, fails on a short input: for 83 bytes whose size field
    announces 84 the size condition does not hold, and the check raises
    [struct.error]; it does not return false. *)
Lemma short_input_not_rejected :
  len sample_input_83 = 83 /\
  u32_at sample_input_83 0 <> len sample_input_83 /\
  ~ header_accepts sample_input_83 /\
  check_signature sample_input_83 = Raise StructError /\
  check_signature sample_input_83 <> Ok false.
Proof.
  split; [vm_compute; reflexivity|].
  split; [vm_compute; discriminate|].
  split; [intros [H _]; vm_compute in H; discriminate H|].
  split; [vm_compute; reflexivity | vm_compute; discriminate].
Qed.

(** C10: on an input shorter than 84 bytes the header check raises
    [struct.error] instead of returning, so the run ends with that exception
    and not with the "Invalid ICC profile" rejection; from 84 bytes on the
    check returns a boolean. *)
Theorem check_signature_minimum_length (prof_data : bytes) :
  (len prof_data < 84 ->
   check_signature prof_data = Raise StructError /\
   forall decode_utf16 ET_fromstring float_of_str,
     main decode_utf16 ET_fromstring float_of_str prof_data
     = mkOutcome (Uncaught StructError) [] None) /\
  (84 <= len prof_data -> exists r, check_signature prof_data = Ok r).
Proof.
  split.
  - intros H. pose proof (check_signature_short _ H) as E. split; [exact E|].
    intros. unfold main. now rewrite E.
  - intros H. eexists. now apply check_signature_long.
Qed.

(** ** Packing and unpacking *)

Lemma Ok_inj {A} (x y : A) : Ok x = Ok y -> x = y.
Proof. congruence. Qed.

Lemma bind_ok {A B} (m : result A) (k : A -> result B) (r : B) :
  bind m k = Ok r -> exists a, m = Ok a /\ k a = Ok r.
Proof. destruct m as [a|e]; simpl; [eauto | discriminate]. Qed.

#[local] Opaque int_to_bytes.

Lemma unpack_pack (fmt : list item) :
  forall args packed post,
    pack fmt args = Ok packed -> canonical fmt args ->
    unpack_fields fmt (packed ++ post) = args.
Proof.
  induction fmt as [|it fmt IH]; intros args packed post Hp Hc.
  - destruct args; [reflexivity | contradiction].
  - destruct it as [|n|n]; cbn [pack canonical] in Hp, Hc.
    + destruct args as [|[z|bs] args]; try contradiction.
      destruct (in_u32 z) eqn:Hz; [|discriminate].
      apply bind_ok in Hp as (rest & Hr & [= <-]).
      cbn [unpack_fields]. rewrite <- app_assoc.
      rewrite firstn_exact, skipn_exact by apply length_int_to_bytes.
      rewrite u32_round_trip by exact Hz. f_equal. now apply IH.
    + destruct args as [|[z|bs] args]; try contradiction.
      destruct Hc as [Hn Hc].
      apply bind_ok in Hp as (rest & Hr & [= <-]).
      rewrite firstn_all2, Hn, Nat.sub_diag by lia. cbn [repeat app].
      cbn [unpack_fields]. rewrite <- app_assoc.
      rewrite firstn_exact, skipn_exact by exact Hn. f_equal. now apply IH.
    + apply bind_ok in Hp as (rest & Hr & [= <-]).
      cbn [unpack_fields]. rewrite <- app_assoc.
      rewrite skipn_exact by apply repeat_length. now apply IH.
Qed.

Lemma len_pack (fmt : list item) :
  forall args packed, pack fmt args = Ok packed -> len packed = calcsize fmt.
Proof.
  induction fmt as [|it fmt IH]; intros args packed Hp.
  - destruct args; [injection Hp as <-; reflexivity | discriminate].
  - destruct it as [|n|n]; cbn [pack] in Hp.
    + destruct args as [|[z|bs] args]; try discriminate.
      destruct (in_u32 z); [|discriminate].
      apply bind_ok in Hp as (rest & Hr & [= <-]).
      rewrite len_app, (IH _ _ Hr). unfold len.
      rewrite length_int_to_bytes. reflexivity.
    + destruct args as [|[z|bs] args]; try discriminate.
      apply bind_ok in Hp as (rest & Hr & [= <-]).
      rewrite !len_app, (IH _ _ Hr), len_repeat. unfold len.
      rewrite length_firstn. cbn [calcsize item_size]. lia.
    + apply bind_ok in Hp as (rest & Hr & [= <-]).
      rewrite len_app, (IH _ _ Hr), len_repeat. reflexivity.
Qed.

(** Reading back, at its offset, what was packed into a buffer. *)
Lemma unpack_from_packed (fmt : list item) (args : list value)
  (pre packed post buffer : bytes) (off : Z) :
  buffer = pre ++ packed ++ post ->
  pack fmt args = Ok packed -> canonical fmt args -> off = len pre ->
  unpack_from fmt buffer off = Ok args.
Proof.
  intros -> Hp Hc ->. pose proof (len_pack _ _ _ Hp) as Hl.
  rewrite unpack_from_fits.
  - unfold len. rewrite Nat2Z.id, skipn_exact by reflexivity.
    f_equal. now apply unpack_pack.
  - apply len_nonneg.
  - rewrite !len_app. pose proof (len_nonneg post). lia.
Qed.

(** ** The layout of a generated body *)

Lemma len_int_to_bytes (n : nat) (z : Z) : len (int_to_bytes n z) = Z.of_nat n.
Proof. unfold len. now rewrite length_int_to_bytes. Qed.

Lemma pack_u32 (z : Z) (word : bytes) :
  pack [FmtI] [VInt z] = Ok word ->
  in_u32 z = true /\ word = int_to_bytes 4 z.
Proof.
  cbn [pack bind]. destruct (in_u32 z); [|discriminate].
  intros [= <-]. now rewrite app_nil_r.
Qed.

Lemma pack_entry (tag : bytes) (off l : Z) (entry : bytes) :
  List.length tag = 4%nat ->
  pack [FmtS 4; FmtI; FmtI] [VBytes tag; VInt off; VInt l] = Ok entry ->
  in_u32 off = true /\ in_u32 l = true /\
  entry = tag ++ int_to_bytes 4 off ++ int_to_bytes 4 l.
Proof.
  intros Ht. cbn [pack bind].
  destruct (in_u32 off); [|discriminate].
  destruct (in_u32 l); [|discriminate].
  cbn [bind]. intros E%Ok_inj. subst entry.
  rewrite firstn_all2, Ht, app_nil_r by lia. auto.
Qed.

Lemma pad4_spec (n : Z) : 0 <= n -> n <= pad4 n < n + 4 /\ pad4 n mod 4 = 0.
Proof.
  intros Hn. unfold pad4. split.
  - pose proof (Z.mod_pos_bound (n + 3) 4). lia.
  - rewrite Zminus_mod, Z.mod_mod, Z.sub_diag by lia. reflexivity.
Qed.

Lemma len_padded (val : bytes) : len (padded val) = pad4 (len val).
Proof.
  unfold padded, pad4. pose proof (len_nonneg val) as Hn.
  rewrite len_app.
  destruct (4 - len val mod 4 <? 4) eqn:E.
  - apply Z.ltb_lt in E. rewrite len_repeat.
    pose proof (Z.mod_pos_bound (len val) 4).
    rewrite Z2Nat.id by lia.
    Z.to_euclidean_division_equations. lia.
  - apply Z.ltb_ge in E. change (len (@nil byte)) with 0.
    Z.to_euclidean_division_equations. lia.
Qed.

Lemma generate_body_data_layout (vals : list bytes) :
  forall data, generate_body_data vals data = data ++ data_bytes vals.
Proof.
  induction vals as [|val vals IH]; intros data; cbn [generate_body_data data_bytes].
  - now rewrite app_nil_r.
  - rewrite IH. unfold padded.
    destruct (4 - len val mod 4 <? 4); now rewrite <- ?app_assoc.
Qed.

Lemma generate_body_table_layout (items : tags_t) :
  forall data off data' off',
    Forall (fun kv => List.length (fst kv) = 4%nat) items ->
    generate_body_table items data off = Ok (data', off') ->
    data' = data ++ table_bytes items off /\
    off' = off + data_len items /\
    table_ok items off.
Proof.
  induction items as [|[tag val] items IH]; intros data off data' off' Hk H.
  - injection H as <- <-. cbn. rewrite app_nil_r. repeat split. lia.
  - cbn [generate_body_table] in H.
    apply bind_ok in H as (entry & He & H).
    inversion Hk as [|? ? Ht Hk']; subst.
    apply pack_entry in He as (Ho & Hl & ->); [|exact Ht].
    apply IH in H as (-> & -> & Hok); [|exact Hk'].
    cbn [table_bytes data_len table_ok]. unfold pad4.
    rewrite <- !app_assoc. repeat split; auto. lia.
Qed.

Lemma len_table_bytes (items : tags_t) :
  forall off, Forall (fun kv => List.length (fst kv) = 4%nat) items ->
              len (table_bytes items off) = 12 * len items.
Proof.
  induction items as [|[tag val] items IH]; intros off Hk; [reflexivity|].
  inversion Hk as [|? ? Ht Hk']; subst. cbn [table_bytes].
  rewrite !len_app, !len_int_to_bytes, IH, len_cons by exact Hk'.
  cbn [fst] in Ht. unfold len at 1. lia.
Qed.

Lemma len_data_bytes (items : tags_t) :
  len (data_bytes (map snd items)) = data_len items.
Proof.
  induction items as [|[tag val] items IH]; [reflexivity|].
  cbn [map snd data_bytes data_len]. now rewrite len_app, len_padded, IH.
Qed.

Lemma data_len_app (xs ys : tags_t) :
  data_len (xs ++ ys) = data_len xs + data_len ys.
Proof.
  induction xs as [|[tag val] xs IH]; cbn [app data_len]; lia.
Qed.

Lemma data_len_nonneg (items : tags_t) : 0 <= data_len items.
Proof.
  induction items as [|[tag val] items IH]; cbn [data_len]; [lia|].
  pose proof (pad4_spec (len val) (len_nonneg val)). unfold len in *. lia.
Qed.

Lemma data_len_mod4 (items : tags_t) : data_len items mod 4 = 0.
Proof.
  induction items as [|[tag val] items IH]; cbn [data_len]; [reflexivity|].
  pose proof (pad4_spec (len val) (len_nonneg val)) as [_ H].
  rewrite Z.add_mod, H, IH by lia. reflexivity.
Qed.

Lemma table_bytes_app (xs ys : tags_t) :
  forall off, table_bytes (xs ++ ys) off
              = table_bytes xs off ++ table_bytes ys (off + data_len xs).
Proof.
  induction xs as [|[tag val] xs IH]; intros off; cbn [app table_bytes data_len].
  - now rewrite Z.add_0_r.
  - rewrite IH, <- !app_assoc.
    now replace (off + pad4 (len val) + data_len xs)
      with (off + (pad4 (len val) + data_len xs)) by lia.
Qed.

Lemma table_ok_app (xs ys : tags_t) :
  forall off, table_ok (xs ++ ys) off -> table_ok ys (off + data_len xs).
Proof.
  induction xs as [|[tag val] xs IH]; intros off; cbn [app table_ok data_len].
  - now rewrite Z.add_0_r.
  - intros (_ & _ & H). apply IH in H.
    now replace (off + (pad4 (len val) + data_len xs))
      with (off + pad4 (len val) + data_len xs) by lia.
Qed.

Lemma data_bytes_app (xs ys : list bytes) :
  data_bytes (xs ++ ys) = data_bytes xs ++ data_bytes ys.
Proof.
  induction xs as [|x xs IH]; cbn [app data_bytes]; [reflexivity|].
  now rewrite IH, app_assoc.
Qed.

(** ** Dictionaries *)

Section DictFacts.
Context {K V : Type} (K_eq_dec : forall x y : K, {x = y} + {x <> y}).

Lemma dict_get_None (k : K) (d : @dict K V) :
  dict_get K_eq_dec k d = None <-> ~ In k (map fst d).
Proof.
  induction d as [|[k' v'] d IH]; cbn [dict_get map fst In]; [tauto|].
  destruct (K_eq_dec k k') as [->|Hne].
  - split; [discriminate | tauto].
  - rewrite IH. split; [intros H [E|E]; [congruence | tauto] | tauto].
Qed.

Lemma dict_mem_false (k : K) (d : @dict K V) :
  dict_mem K_eq_dec k d = false <-> ~ In k (map fst d).
Proof.
  unfold dict_mem. rewrite <- dict_get_None.
  destruct (dict_get K_eq_dec k d); split; congruence.
Qed.

Lemma dict_set_new (k : K) (v : V) (d : @dict K V) :
  ~ In k (map fst d) -> dict_set K_eq_dec k v d = d ++ [(k, v)].
Proof.
  induction d as [|[k' v'] d IH]; cbn [dict_set map fst In app]; intros H;
    [reflexivity|].
  destruct (K_eq_dec k k') as [->|Hne]; [tauto|].
  rewrite IH by tauto. reflexivity.
Qed.

Lemma dict_set_old (k : K) (v : V) (d : @dict K V) :
  In k (map fst d) -> map fst (dict_set K_eq_dec k v d) = map fst d.
Proof.
  induction d as [|[k' v'] d IH]; cbn [dict_set map fst In]; intros H;
    [contradiction|].
  destruct (K_eq_dec k k') as [->|Hne]; [reflexivity|].
  cbn [map fst]. rewrite IH; [reflexivity|]. destruct H; congruence.
Qed.

Lemma dict_set_keys_NoDup (k : K) (v : V) (d : @dict K V) :
  NoDup (map fst d) -> NoDup (map fst (dict_set K_eq_dec k v d)).
Proof.
  intros H. destruct (in_dec K_eq_dec k (map fst d)) as [Hin|Hout].
  - now rewrite dict_set_old.
  - rewrite dict_set_new, map_app by exact Hout. cbn [map fst].
    apply NoDup_app; repeat split; auto.
    + constructor; [intros []|constructor].
    + intros x Hx [<-|[]]. contradiction.
Qed.

Lemma dict_set_keys_Forall (P : K -> Prop) (k : K) (v : V) (d : @dict K V) :
  P k -> Forall (fun kv => P (fst kv)) d ->
  Forall (fun kv => P (fst kv)) (dict_set K_eq_dec k v d).
Proof.
  intros Hk. induction 1 as [|[k' v'] d Hx Hd IH]; cbn [dict_set].
  - repeat constructor. exact Hk.
  - destruct (K_eq_dec k k'); constructor; auto.
Qed.

Lemma dict_mem_last (k : K) (v : V) (d : @dict K V) :
  dict_mem K_eq_dec k (d ++ [(k, v)]) = true.
Proof.
  destruct (dict_mem K_eq_dec k (d ++ [(k, v)])) eqn:E; [reflexivity|].
  apply dict_mem_false in E. exfalso. apply E.
  rewrite map_app, in_app_iff. right. now left.
Qed.
End DictFacts.

(** ** Reading a generated body back *)

Lemma pack_entry_ok (tag : bytes) (off l : Z) :
  List.length tag = 4%nat -> in_u32 off = true -> in_u32 l = true ->
  pack [FmtS 4; FmtI; FmtI] [VBytes tag; VInt off; VInt l]
  = Ok (tag ++ int_to_bytes 4 off ++ int_to_bytes 4 l).
Proof.
  intros Ht Ho Hl. cbn [pack bind]. rewrite Ho, Hl. cbn [bind].
  now rewrite firstn_all2, Ht, app_nil_r by lia.
Qed.

Lemma parse_tags_loop_generated (out hdr : bytes) (items : tags_t) :
  tags_wf items ->
  table_ok items (132 + len items * 12) ->
  len hdr = 132 ->
  out = hdr ++ table_bytes items (132 + len items * 12)
            ++ data_bytes (map snd items) ->
  forall rest done,
    items = done ++ rest ->
    parse_tags_loop out (List.length rest) (len done) done = Ok items.
Proof.
  intros [Hnd Hk] Hok Hh Hout rest.
  induction rest as [|[tag val] rest IH]; intros done Hi.
  - rewrite app_nil_r in Hi. now subst done.
  - cbn [List.length parse_tags_loop].
    set (off0 := 132 + len items * 12) in *.
    assert (Ht : List.length tag = 4%nat).
    { rewrite Hi in Hk. apply Forall_app in Hk as [_ Hk]. now inversion Hk. }
    assert (Hok' : table_ok ((tag, val) :: rest) (off0 + data_len done)).
    { apply table_ok_app. now rewrite <- Hi. }
    destruct Hok' as (Ho & Hl & _).
    assert (Hkd : Forall (fun kv => List.length (fst kv) = 4%nat) done).
    { rewrite Hi in Hk. now apply Forall_app in Hk as [Hk _]. }
    (* the table entry *)
    rewrite (unpack_from_packed [FmtS 4; FmtI; FmtI]
               [VBytes tag; VInt (off0 + data_len done); VInt (len val)]
               (hdr ++ table_bytes done off0)
               (tag ++ int_to_bytes 4 (off0 + data_len done)
                    ++ int_to_bytes 4 (len val))
               (table_bytes rest (off0 + data_len done + pad4 (len val))
                  ++ data_bytes (map snd items))).
    2:{ rewrite Hout.
        replace (table_bytes items off0)
          with (table_bytes (done ++ (tag, val) :: rest) off0)
          by now rewrite <- Hi.
        rewrite table_bytes_app.
        cbn [table_bytes]. now rewrite <- !app_assoc. }
    2:{ now apply pack_entry_ok. }
    2:{ cbn. auto. }
    2:{ rewrite len_app, len_table_bytes, Hh by exact Hkd. lia. }
    cbn [bind].
    (* the tag data *)
    rewrite (slice_app_mid
               (hdr ++ table_bytes items off0 ++ data_bytes (map snd done))
               val
               ((if 4 - len val mod 4 <? 4
                 then repeat x00 (Z.to_nat (4 - len val mod 4)) else [])
                  ++ data_bytes (map snd rest))).
    2:{ rewrite !len_app, len_table_bytes, len_data_bytes, Hh by exact Hk.
        unfold off0. lia. }
    2:{ reflexivity. }
    2:{ rewrite Hout.
        replace (map snd items)
          with (map snd (done ++ (tag, val) :: rest))
          by now rewrite <- Hi.
        rewrite map_app, data_bytes_app.
        cbn [map snd data_bytes]. unfold padded. now rewrite <- !app_assoc. }
    rewrite dict_set_new.
    2:{ rewrite Hi, map_app in Hnd. cbn [map fst] in Hnd.
        apply NoDup_remove_2 in Hnd. rewrite in_app_iff in Hnd. tauto. }
    replace (len done + 1) with (len (done ++ [(tag, val)]))
      by (rewrite len_app; reflexivity).
    apply IH. now rewrite <- app_assoc.
Qed.

Lemma unpack_from_ok (fmt : list item) (d : bytes) (off : Z) (fields : list value) :
  unpack_from fmt d off = Ok fields ->
  0 <= off /\ off + calcsize fmt <= len d /\
  fields = unpack_fields fmt (skipn (Z.to_nat off) d).
Proof.
  unfold unpack_from.
  destruct (0 <=? off) eqn:E0; [|discriminate].
  destruct (off + calcsize fmt <=? len d) eqn:E1; [|discriminate].
  cbn [andb]. intros H%Ok_inj. apply Z.leb_le in E0, E1. auto.
Qed.

Lemma parse_tags_loop_wf (d : bytes) (n : nat) :
  forall i res tags,
    tags_wf res -> parse_tags_loop d n i res = Ok tags -> tags_wf tags.
Proof.
  induction n as [|n IH]; intros i res tags Hwf H; cbn [parse_tags_loop] in H.
  - apply Ok_inj in H. now subst.
  - apply bind_ok in H as (fields & Hf & H).
    apply unpack_from_ok in Hf as (H0 & Hlen & ->).
    cbn [unpack_fields calcsize item_size] in H, Hlen.
    apply IH in H; [exact H|].
    destruct Hwf as [Hnd Hk]. split.
    + now apply dict_set_keys_NoDup.
    + apply (dict_set_keys_Forall bytes_eq_dec
               (fun k => List.length k = 4%nat)); [|exact Hk].
      rewrite length_firstn, length_skipn. unfold len in Hlen. lia.
Qed.

Lemma parse_tags_wf (d : bytes) (tags : tags_t) :
  parse_tags d = Ok tags -> tags_wf tags /\ 132 <= len d.
Proof.
  unfold parse_tags. intros H.
  apply bind_ok in H as (fields & Hf & H).
  apply unpack_from_ok in Hf as (_ & Hlen & ->).
  cbn [unpack_fields calcsize item_size] in H, Hlen. split; [|lia].
  eapply parse_tags_loop_wf; [|exact H]. split; constructor.
Qed.

Lemma generate_body_layout (tags : tags_t) (body : bytes) :
  Forall (fun kv => List.length (fst kv) = 4%nat) tags ->
  generate_body tags = Ok body ->
  in_u32 (len tags) = true /\
  table_ok tags (132 + len tags * 12) /\
  body = int_to_bytes 4 (len tags)
           ++ table_bytes tags (132 + len tags * 12)
           ++ data_bytes (map snd tags).
Proof.
  intros Hk H. unfold generate_body in H.
  apply bind_ok in H as (cnt & Hc & H).
  apply pack_u32 in Hc as (Hn & ->).
  apply bind_ok in H as ([data off] & Ht & H).
  apply generate_body_table_layout in Ht as (-> & _ & Hok); [|exact Hk].
  apply Ok_inj in H. subst body.
  rewrite generate_body_data_layout, <- app_assoc. auto.
Qed.

Lemma len_generated_body (tags : tags_t) (body : bytes) :
  Forall (fun kv => List.length (fst kv) = 4%nat) tags ->
  generate_body tags = Ok body ->
  len body = 4 + 12 * len tags + data_len tags.
Proof.
  intros Hk H. apply generate_body_layout in H as (_ & _ & ->); [|exact Hk].
  rewrite !len_app, len_int_to_bytes, len_table_bytes, len_data_bytes
    by exact Hk. lia.
Qed.

Lemma create_profile_layout (header body out : bytes) :
  create_profile header body = Ok out ->
  in_u32 (len body + 128) = true /\
  out = int_to_bytes 4 (len body + 128) ++ skipn 4 header ++ body.
Proof.
  unfold create_profile. intros H.
  apply bind_ok in H as (size & Hs & H).
  apply pack_u32 in Hs as (Hn & ->). apply Ok_inj in H. auto.
Qed.

Lemma pack_u32_ok (z : Z) :
  in_u32 z = true -> pack [FmtI] [VInt z] = Ok (int_to_bytes 4 z).
Proof. intros H. cbn [pack bind]. now rewrite H, app_nil_r. Qed.

(** What [parse_tags] reads in a profile built from a header of 128 bytes and
    the body generated for a well-formed tag table: that table. *)
Lemma parse_tags_created (header body out : bytes) (tags : tags_t) :
  tags_wf tags -> len header = 128 ->
  generate_body tags = Ok body ->
  create_profile header body = Ok out ->
  parse_tags out = Ok tags.
Proof.
  intros Hwf Hh Hb Hc. pose proof Hwf as [_ Hk].
  apply generate_body_layout in Hb as (Hn & Hok & Hbody); [|exact Hk].
  apply create_profile_layout in Hc as (_ & Hout).
  assert (Hpre : len (int_to_bytes 4 (len body + 128) ++ skipn 4 header) = 128).
  { rewrite len_app, len_int_to_bytes. unfold len in *.
    rewrite length_skipn. lia. }
  unfold parse_tags.
  rewrite (unpack_from_packed [FmtI] [VInt (len tags)]
             (int_to_bytes 4 (len body + 128) ++ skipn 4 header)
             (int_to_bytes 4 (len tags))
             (table_bytes tags (132 + len tags * 12)
                ++ data_bytes (map snd tags))).
  2:{ rewrite Hout, Hbody. now rewrite <- !app_assoc. }
  2:{ now apply pack_u32_ok. }
  2:{ exact I. }
  2:{ now rewrite Hpre. }
  cbn [bind]. unfold len at 1. rewrite Nat2Z.id.
  apply (fun Hh' Ho' =>
           parse_tags_loop_generated out
             ((int_to_bytes 4 (len body + 128) ++ skipn 4 header)
                ++ int_to_bytes 4 (len tags)) tags Hwf Hok Hh' Ho' tags []).
  - rewrite len_app, Hpre, len_int_to_bytes. reflexivity.
  - rewrite Hout, Hbody. now rewrite <- !app_assoc.
  - reflexivity.
Qed.

(** ** Slices of a created profile *)

Lemma slice_app_l {A} (lo hi : Z) (l1 l2 : list A) :
  0 <= lo -> hi <= len l1 -> slice lo hi (l1 ++ l2) = slice lo hi l1.
Proof.
  intros H0 H. unfold slice, len in *.
  rewrite skipn_app, firstn_app, length_skipn.
  replace (Z.to_nat (hi - lo) - (List.length l1 - Z.to_nat lo))%nat
    with 0%nat by lia.
  cbn [firstn]. apply app_nil_r.
Qed.

Lemma slice_app_r {A} (lo hi : Z) (l1 l2 : list A) :
  len l1 <= lo -> slice lo hi (l1 ++ l2) = slice (lo - len l1) (hi - len l1) l2.
Proof.
  intros H. unfold slice, len in *.
  rewrite skipn_app, skipn_all2 by lia. cbn [app].
  f_equal; [|f_equal]; lia.
Qed.

Lemma slice_skipn {A} (lo hi : Z) (k : nat) (l : list A) :
  0 <= lo -> slice lo hi (skipn k l) = slice (lo + Z.of_nat k) (hi + Z.of_nat k) l.
Proof.
  intros H. unfold slice. rewrite skipn_skipn. f_equal; [|f_equal]; lia.
Qed.

Lemma slice_firstn {A} (lo hi : Z) (n : nat) (l : list A) :
  0 <= lo -> hi <= Z.of_nat n -> slice lo hi (firstn n l) = slice lo hi l.
Proof.
  intros H0 H. unfold slice. rewrite skipn_firstn_comm, firstn_firstn.
  f_equal. lia.
Qed.

Lemma created_header_slice (lo hi : Z) (size prof body : bytes) :
  len size = 4 -> 128 <= len prof -> 4 <= lo -> lo <= hi -> hi <= 128 ->
  slice lo hi (size ++ skipn 4 (slice 0 128 prof) ++ body) = slice lo hi prof.
Proof.
  intros Hs Hp Hlo Hlh Hhi.
  rewrite slice_app_r, Hs by lia.
  rewrite slice_app_l; [| lia |].
  - rewrite slice_skipn by lia. unfold slice at 2.
    change (skipn (Z.to_nat 0) prof) with prof.
    rewrite slice_firstn by lia. f_equal; lia.
  - unfold slice, len in *.
    rewrite length_skipn, length_firstn, length_skipn. lia.
Qed.

Lemma u32_at_start (z : Z) (rest : bytes) :
  in_u32 z = true -> u32_at (int_to_bytes 4 z ++ rest) 0 = z.
Proof.
  intros H. unfold u32_at.
  rewrite (slice_app_mid [] (int_to_bytes 4 z) rest (int_to_bytes 4 z ++ rest));
    [now apply u32_round_trip | reflexivity | | reflexivity].
  now rewrite len_int_to_bytes.
Qed.

(** ** The conversion *)

Section ConversionFacts.

Variable decode_utf16 : bytes -> result string.
Variable ET_fromstring : string -> result Element.
Variable float_of_str : string -> result float.

Local Abbreviation main' := (main decode_utf16 ET_fromstring float_of_str).
Local Abbreviation extract_calib_data' :=
  (extract_calib_data decode_utf16 ET_fromstring float_of_str).

(** The steps of a successful run. *)
Lemma main_success_inv (prof_data out : bytes) :
  main' prof_data = mkOutcome (Returned 0) [] (Some out) ->
  exists tags vcgt_data body,
    check_signature prof_data = Ok true /\
    parse_tags prof_data = Ok tags /\
    ~ In vcgt (map fst tags) /\
    (exists wcs_data cdmp_data camp_data gmmp_data calib_data,
        dict_get bytes_eq_dec MS00 tags = Some wcs_data /\
        parse_wcs wcs_data = Ok (cdmp_data, camp_data, gmmp_data) /\
        extract_calib_data' cdmp_data = Ok calib_data /\
        generate_vcgt calib_data = Ok vcgt_data) /\
    generate_body (tags ++ [(vcgt, vcgt_data)]) = Ok body /\
    create_profile (slice 0 128 prof_data) body = Ok out.
Proof.
  unfold main.
  destruct (check_signature prof_data) as [[|]|] eqn:Hsig; try discriminate.
  destruct (parse_tags prof_data) as [tags|] eqn:Htags; try discriminate.
  destruct (dict_mem bytes_eq_dec vcgt tags) eqn:Hmem; try discriminate.
  destruct (dict_get bytes_eq_dec MS00 tags) as [wcs_data|] eqn:Hwcs;
    try discriminate.
  match goal with
  | |- match ?m with _ => _ end = _ -> _ =>
      destruct m as [tags'|] eqn:Hconv; try discriminate
  end.
  match goal with
  | |- match ?m with _ => _ end = _ -> _ =>
      destruct m as [data|] eqn:Hbuild; try discriminate
  end.
  intros H. assert (data = out) as -> by congruence. clear H.
  apply bind_ok in Hconv as ([[cdmp camp] gmmp] & Hp & Hconv).
  apply bind_ok in Hconv as (calib & He & Hconv).
  apply bind_ok in Hconv as (vcgt_data & Hv & Hconv).
  apply Ok_inj in Hconv. subst tags'.
  apply dict_mem_false in Hmem.
  rewrite dict_set_new in Hbuild by exact Hmem.
  apply bind_ok in Hbuild as (body & Hb & Hc).
  exists tags, vcgt_data, body. repeat split; auto.
  exists wcs_data, cdmp, camp, gmmp, calib. auto.
Qed.

(** The profile a successful run writes: 128 header bytes and the body. *)
Lemma main_success_layout (prof_data out : bytes) :
  main' prof_data = mkOutcome (Returned 0) [] (Some out) ->
  exists tags vcgt_data body,
    parse_tags prof_data = Ok tags /\
    ~ In vcgt (map fst tags) /\
    tags_wf (tags ++ [(vcgt, vcgt_data)]) /\
    generate_body (tags ++ [(vcgt, vcgt_data)]) = Ok body /\
    create_profile (slice 0 128 prof_data) body = Ok out /\
    len (slice 0 128 prof_data) = 128 /\
    in_u32 (len body + 128) = true /\
    out = int_to_bytes 4 (len body + 128)
            ++ skipn 4 (slice 0 128 prof_data) ++ body /\
    len out = 128 + len body /\
    len body mod 4 = 0.
Proof.
  intros H.
  apply main_success_inv in H
    as (tags & vcgt_data & body & Hsig & Htags & Hnew & _ & Hb & Hc).
  pose proof (parse_tags_wf _ _ Htags) as [[Hnd Hk] Hlen].
  assert (Hwf : tags_wf (tags ++ [(vcgt, vcgt_data)])).
  { split.
    - rewrite map_app. apply NoDup_app; repeat split; auto.
      + repeat constructor. intros [].
      + intros x Hx [<-|[]]. contradiction.
    - apply Forall_app. split; [exact Hk|]. repeat constructor. }
  assert (Hh : len (slice 0 128 prof_data) = 128)
    by (apply len_slice; lia).
  pose proof (create_profile_layout _ _ _ Hc) as [Hn Hout].
  exists tags, vcgt_data, body. repeat split; try assumption.
  - apply Hwf.
  - apply Hwf.
  - rewrite Hout, !len_app, len_int_to_bytes. unfold len in *.
    rewrite length_skipn. lia.
  - rewrite (len_generated_body _ _ (proj2 Hwf) Hb).
    pose proof (data_len_mod4 (tags ++ [(vcgt, vcgt_data)])).
    Z.to_euclidean_division_equations. lia.
Qed.

(** C2: in the profile a successful conversion writes, the 32-bit size
    field holds 128 plus the length of the serialized body, which is the
    length of the output and a positive multiple of 4. *)
Theorem output_declared_size (prof_data out : bytes) :
  main' prof_data = mkOutcome (Returned 0) [] (Some out) ->
  exists tags vcgt_data body,
    parse_tags prof_data = Ok tags /\
    generate_body (tags ++ [(vcgt, vcgt_data)]) = Ok body /\
    skipn 128 out = body /\
    u32_at out 0 = 128 + len body /\
    128 + len body = len out /\
    0 < len out /\
    len out mod 4 = 0.
Proof.
  intros H.
  apply main_success_layout in H
    as (tags & vcgt_data & body & Ht & _ & _ & Hb & _ & Hh & Hn & Hout
        & Hlen & Hmod).
  exists tags, vcgt_data, body.
  pose proof (len_nonneg body) as Hpos.
  repeat split; try lia; try assumption.
  - rewrite Hout, app_assoc. apply skipn_exact.
    apply Nat2Z.inj. fold (len (int_to_bytes 4 (len body + 128)
                                  ++ skipn 4 (slice 0 128 prof_data))).
    rewrite len_app, len_int_to_bytes. unfold len in *.
    rewrite length_skipn. lia.
  - rewrite Hout, u32_at_start by exact Hn. lia.
  - rewrite Hlen. Z.to_euclidean_division_equations. lia.
Qed.

(** C3: the tag table of the profile a successful conversion writes is
    the tag table of the input, every tag with the same bytes and in the
    same order, followed by the new [vcgt] tag. *)
Theorem output_tags_preserved (prof_data out : bytes) :
  main' prof_data = mkOutcome (Returned 0) [] (Some out) ->
  exists tags vcgt_data,
    parse_tags prof_data = Ok tags /\
    ~ In vcgt (map fst tags) /\
    parse_tags out = Ok (tags ++ [(vcgt, vcgt_data)]).
Proof.
  intros H.
  apply main_success_layout in H
    as (tags & vcgt_data & body & Ht & Hnew & Hwf & Hb & Hc & Hh & _).
  exists tags, vcgt_data. repeat split; try assumption.
  now apply (parse_tags_created (slice 0 128 prof_data) body).
Qed.

(** C4: converting the output of a successful conversion again ends with
    "Profile already has VCGT" and result 1, before the output file is
    opened. *)
Theorem conversion_not_repeatable (prof_data out : bytes) :
  main' prof_data = mkOutcome (Returned 0) [] (Some out) ->
  main' out
  = mkOutcome (Returned 1) ["Profile already has VCGT"%string] None.
Proof.
  intros H.
  pose proof (main_success_inv _ _ H) as (_ & _ & _ & Hsig & _).
  apply main_success_layout in H
    as (tags & vcgt_data & body & Ht & Hnew & Hwf & Hb & Hc & Hh & Hn
        & Hout & Hlen & Hmod).
  assert (Hlong : 128 <= len prof_data)
    by (pose proof (parse_tags_wf _ _ Ht); lia).
  assert (Hsig' : check_signature out = Ok true).
  { apply check_signature_accepts_ok.
    apply check_signature_accepts_ok in Hsig.
    destruct Hsig as (_ & _ & Hs & Hv & Hd & Hcol & Hp & Hcr).
    assert (Hsz : len (int_to_bytes 4 (len body + 128)) = 4)
      by now rewrite len_int_to_bytes.
    assert (Hsize : u32_at out 0 = len out).
    { rewrite Hout at 1. rewrite u32_at_start by exact Hn. lia. }
    unfold header_accepts. rewrite Hsize. unfold u32_at in *.
    split; [reflexivity|]. split.
    { rewrite Hlen. Z.to_euclidean_division_equations. lia. }
    rewrite Hout.
    rewrite !(created_header_slice _ _ _ _ _ Hsz Hlong) by lia.
    repeat split; assumption. }
  unfold main. rewrite Hsig'.
  rewrite (parse_tags_created _ _ _ _ Hwf Hh Hb Hc).
  now rewrite dict_mem_last.
Qed.

(** C8: a profile that passes the header check and whose tag table has
    neither a [vcgt] nor an [MS00] tag ends with "WCS tag is not present"
    and result 1, which is not the outcome of an invalid profile, and the
    output file is never opened. *)
Theorem missing_wcs_tag (prof_data : bytes) (tags : tags_t) :
  check_signature prof_data = Ok true ->
  parse_tags prof_data = Ok tags ->
  dict_mem bytes_eq_dec vcgt tags = false ->
  dict_mem bytes_eq_dec MS00 tags = false ->
  main' prof_data
  = mkOutcome (Returned 1) ["WCS tag is not present"%string] None /\
  main' prof_data
  <> mkOutcome (Returned 1) ["Invalid ICC profile"%string] None.
Proof.
  intros Hsig Ht Hv Hw.
  assert (E : main' prof_data
              = mkOutcome (Returned 1) ["WCS tag is not present"%string] None).
  { unfold main. rewrite Hsig, Ht, Hv.
    unfold dict_mem in Hw.
    destruct (dict_get bytes_eq_dec MS00 tags); [discriminate|reflexivity]. }
  split; [exact E|]. rewrite E. discriminate.
Qed.

End ConversionFacts.

(** ** The VCGT encoder *)

Lemma scaled_all_app (xs ys : list float) :
  scaled_all (xs ++ ys)
  = (nx <- scaled_all xs ;; ny <- scaled_all ys ;; Ok (nx ++ ny)).
Proof.
  induction xs as [|x xs IH]; cbn [app scaled_all bind].
  - now destruct (scaled_all ys).
  - destruct (scaled x) as [n|e]; cbn [bind]; [|reflexivity].
    rewrite IH. destruct (scaled_all xs) as [nx|e]; cbn [bind]; [|reflexivity].
    now destruct (scaled_all ys).
Qed.

Lemma words_app (xs ys : list Z) : words (xs ++ ys) = words xs ++ words ys.
Proof. unfold words. now rewrite map_app, concat_app. Qed.

Lemma len_words (ns : list Z) : len (words ns) = 4 * len ns.
Proof.
  induction ns as [|n ns IH]; [reflexivity|].
  unfold words in *. cbn [map List.concat].
  rewrite len_app, len_int_to_bytes, IH, len_cons. lia.
Qed.

Lemma generate_vcgt_values_eq (vs : list float) :
  forall data,
    generate_vcgt_values vs data
    = (ns <- scaled_all vs ;; Ok (data ++ words ns)).
Proof.
  induction vs as [|v vs IH]; intros data; cbn [generate_vcgt_values scaled_all bind].
  - unfold words. cbn. now rewrite app_nil_r.
  - unfold scaled.
    destruct (int_of_float (float_mul v (float_of_int 65535))) as [n|e];
      cbn [bind pack]; [|reflexivity].
    destruct (in_u32 n); cbn [bind]; [|reflexivity].
    rewrite IH. destruct (scaled_all vs) as [ns|e]; cbn [bind]; [|reflexivity].
    unfold words. cbn [map List.concat]. now rewrite app_nil_r, <- app_assoc.
Qed.

Lemma generate_vcgt_eq (calib_data : calib_t) (r g b : list float) :
  dict_get string_dec "r"%string calib_data = Some r ->
  dict_get string_dec "g"%string calib_data = Some g ->
  dict_get string_dec "b"%string calib_data = Some b ->
  generate_vcgt calib_data
  = (ns <- scaled_all (r ++ g ++ b) ;; Ok (vcgt_prefix ++ words ns)).
Proof.
  intros Hr Hg Hb. unfold generate_vcgt, dict_item.
  cbn [generate_vcgt_loop]. unfold dict_item. rewrite Hr, Hg, Hb. cbn [bind].
  rewrite !scaled_all_app, generate_vcgt_values_eq.
  destruct (scaled_all r) as [nr|e]; cbn [bind]; [|reflexivity].
  rewrite generate_vcgt_values_eq.
  destruct (scaled_all g) as [ng|e]; cbn [bind]; [|reflexivity].
  rewrite generate_vcgt_values_eq.
  destruct (scaled_all b) as [nb|e]; cbn [bind]; [|reflexivity].
  now rewrite !words_app, <- !app_assoc.
Qed.

Lemma scaled_all_Forall2 (vs : list float) (ns : list Z) :
  Forall2 (fun v n => int_of_float (float_mul v (float_of_int 65535)) = Ok n
                      /\ in_u32 n = true) vs ns ->
  scaled_all vs = Ok ns.
Proof.
  induction 1 as [|v n vs ns [Hv Hn] _ IH]; [reflexivity|].
  cbn [scaled_all]. unfold scaled. rewrite Hv. cbn [bind].
  rewrite Hn, IH. reflexivity.
Qed.

Lemma scaled_raises (v : float) (e : exn) :
  scaled v = Raise e -> e = StructError \/ e = OverflowError \/ e = ValueError.
Proof.
  unfold scaled.
  destruct (float_mul v (float_of_int 65535)) as [s|s| |s m x];
    cbn [int_of_float bind].
  - discriminate.
  - intros [= <-]. auto.
  - intros [= <-]. auto.
  - destruct (in_u32 _); [discriminate|]. intros [= <-]. auto.
Qed.

Lemma scaled_all_raises (vs : list float) (e : exn) :
  scaled_all vs = Raise e ->
  e = StructError \/ e = OverflowError \/ e = ValueError.
Proof.
  induction vs as [|v vs IH]; cbn [scaled_all]; [discriminate|].
  destruct (scaled v) as [n|e'] eqn:Hv; cbn [bind].
  - destruct (scaled_all vs) as [ns|e'']; cbn [bind]; [discriminate|].
    intros [= <-]. now apply IH.
  - intros [= <-]. now apply scaled_raises in Hv.
Qed.

Lemma scaled_all_out_of_range (vs : list float) :
  Exists (fun v =>
            match int_of_float (float_mul v (float_of_int 65535)) with
            | Ok n => n < 0 \/ 2 ^ 32 <= n
            | Raise _ => True
            end) vs ->
  exists e, scaled_all vs = Raise e.
Proof.
  induction 1 as [v vs Hv|v vs _ IH]; cbn [scaled_all].
  - unfold scaled.
    destruct (int_of_float (float_mul v (float_of_int 65535))) as [n|e];
      cbn [bind]; [|eauto].
    destruct (in_u32 n) eqn:Hn; [|cbn [bind]; eauto].
    apply in_u32_iff in Hn. lia.
  - destruct IH as [e ->]. destruct (scaled v); cbn [bind]; eauto.
Qed.

(** C5: the encoder stores, after the 12-byte prefix and in the order red,
    green, blue, each value [v] as the 32-bit big-endian word of
    [int(v * 65535)], the product truncated toward zero; the words read back
    as those integers, and the curve (2.2, 0.0, 1.0) gives 144177, 0 and
    65535. *)
Theorem vcgt_encoding :
  (forall (calib_data : calib_t) (r g b : list float) (ns : list Z),
      dict_get string_dec "r"%string calib_data = Some r ->
      dict_get string_dec "g"%string calib_data = Some g ->
      dict_get string_dec "b"%string calib_data = Some b ->
      Forall2 (fun v n =>
                 int_of_float (float_mul v (float_of_int 65535)) = Ok n
                 /\ in_u32 n = true) (r ++ g ++ b) ns ->
      generate_vcgt calib_data = Ok (vcgt_prefix ++ words ns)) /\
  (forall n rest, in_u32 n = true -> u32_at (int_to_bytes 4 n ++ rest) 0 = n) /\
  (forall s m e,
      (0 <= e ->
       int_of_float (S754_finite s m e)
       = Ok (if s then - (Z.pos m * 2 ^ e) else Z.pos m * 2 ^ e)) /\
      (e < 0 ->
       int_of_float (S754_finite s m e)
       = Ok (if s then - (Z.pos m / 2 ^ (- e)) else Z.pos m / 2 ^ (- e)))) /\
  map (fun v => int_of_float (float_mul v (float_of_int 65535)))
    [float_2_2; float_0; float_1]
  = [Ok 144177; Ok 0; Ok 65535] /\
  generate_vcgt [("r", [float_2_2; float_0; float_1]);
                 ("g", [float_2_2; float_0; float_1]);
                 ("b", [float_2_2; float_0; float_1])]%string
  = Ok (vcgt_prefix ++ words [144177; 0; 65535; 144177; 0; 65535;
                              144177; 0; 65535]).
Proof.
  split; [|split; [|split; [|split]]].
  - intros calib_data r g b ns Hr Hg Hb H.
    rewrite (generate_vcgt_eq _ _ _ _ Hr Hg Hb).
    now rewrite (scaled_all_Forall2 _ _ H).
  - intros n rest H. now apply u32_at_start.
  - intros s m e. cbn [int_of_float]. split.
    + intros Hpos. rewrite Z.shiftl_mul_pow2 by lia. reflexivity.
    + intros Hneg.
      rewrite <- Z.shiftr_opp_r, Z.shiftr_div_pow2 by lia. reflexivity.
  - vm_compute. reflexivity.
  - vm_compute. reflexivity.
Qed.

(** C7, as stated, fails: the product of [-2 ** -17] and 65535 is negative,
    outside the unsigned range, and the encoder does not reject it; the
    product is truncated to 0 and stored. *)
Lemma negative_product_is_encoded :
  SFltb (float_mul float_tiny_negative (float_of_int 65535)) float_0 = true /\
  generate_vcgt [("r", [float_1; float_tiny_negative; float_1]);
                 ("g", identity_curve); ("b", identity_curve)]%string
  = Ok (vcgt_prefix ++ words [65535; 0; 65535; 65535; 0; 65535;
                              65535; 0; 65535]).
Proof. split; vm_compute; reflexivity. Qed.

(** ** The extraction of the curves *)

Lemma scaled_all_length (vs : list float) :
  forall ns, scaled_all vs = Ok ns -> List.length ns = List.length vs.
Proof.
  induction vs as [|v vs IH]; intros ns H; cbn [scaled_all] in H.
  - apply Ok_inj in H. now subst.
  - apply bind_ok in H as (n & _ & H). apply bind_ok in H as (ns' & H' & H).
    apply Ok_inj in H. subst ns. cbn [List.length]. now rewrite (IH _ H').
Qed.

Lemma scaled_all_app_inv (xs ys : list float) (ns : list Z) :
  scaled_all (xs ++ ys) = Ok ns ->
  exists nx ny, scaled_all xs = Ok nx /\ scaled_all ys = Ok ny /\ ns = nx ++ ny.
Proof.
  rewrite scaled_all_app. intros H.
  apply bind_ok in H as (nx & Hx & H). apply bind_ok in H as (ny & Hy & H).
  apply Ok_inj in H. eauto.
Qed.

Lemma in_difference (k : string) (keys allowed : list string) :
  In k keys -> ~ In k allowed ->
  (len (difference keys allowed) =? 0) = false.
Proof.
  intros Hk Hn. apply Z.eqb_neq.
  assert (Hin : In k (difference keys allowed)).
  { unfold difference. apply filter_In. split; [exact Hk|].
    apply negb_true_iff. destruct (existsb (String.eqb k) allowed) eqn:E;
      [|reflexivity].
    apply existsb_exists in E as (x & Hx & E%String.eqb_eq). now subst. }
  destruct (difference keys allowed); [destruct Hin|].
  rewrite len_cons. pose proof (len_nonneg l). lia.
Qed.

Section ExtractionFacts.

Variable decode_utf16 : bytes -> result string.
Variable ET_fromstring : string -> result Element.
Variable float_of_str : string -> result float.

Local Abbreviation main' := (main decode_utf16 ET_fromstring float_of_str).
Local Abbreviation extract_calib_data' :=
  (extract_calib_data decode_utf16 ET_fromstring float_of_str).
Local Abbreviation extract_curve' := (extract_curve float_of_str).
Local Abbreviation extract_calib_loop' := (extract_calib_loop float_of_str).

Lemma extract_curve_absent (calib_data_tag : Element) (tag : string) :
  find [tag] calib_data_tag = None ->
  extract_curve' calib_data_tag tag = Ok identity_curve.
Proof. intros H. unfold extract_curve. rewrite H. reflexivity. Qed.

Lemma extract_curve_length (calib_data_tag : Element) (tag : string)
  (curve : list float) :
  extract_curve' calib_data_tag tag = Ok curve -> List.length curve = 3%nat.
Proof.
  unfold extract_curve. intros H.
  apply bind_ok in H as (calib_tag & _ & H).
  cbn [curve_keys get_floats] in H.
  apply bind_ok in H as (v1 & _ & H). apply bind_ok in H as (vs1 & H1 & H).
  apply bind_ok in H1 as (v2 & _ & H1). apply bind_ok in H1 as (vs2 & H2 & H1).
  apply bind_ok in H2 as (v3 & _ & H2). apply bind_ok in H2 as (vs3 & H3 & H2).
  apply Ok_inj in H, H1, H2, H3. now subst.
Qed.

Lemma extract_curve_bad_attribute (calib_data_tag calib_tag : Element)
  (tag key : string) :
  find [tag] calib_data_tag = Some calib_tag ->
  In key (map fst (attrib calib_tag)) ->
  ~ In key ["Gamma"; "Offset1"; "Gain"]%string ->
  extract_curve' calib_data_tag tag = Raise AssertionError.
Proof.
  intros Hf Hk Hn. unfold extract_curve. rewrite Hf.
  rewrite (in_difference key); [reflexivity | exact Hk |].
  intros H. apply Hn. cbn [In] in *. tauto.
Qed.

Lemma extract_calib_loop_raises (calib_data_tag : Element)
  (chans : list (string * string)) (i tag : string) (e0 : exn) :
  In (i, tag) chans ->
  extract_curve' calib_data_tag tag = Raise e0 ->
  forall calib_data,
  exists e, extract_calib_loop' calib_data_tag chans calib_data = Raise e.
Proof.
  induction chans as [|[i' tag'] chans IH]; intros Hin He calib_data;
    [destruct Hin|].
  cbn [extract_calib_loop].
  destruct Hin as [[= -> ->]|Hin].
  - rewrite He. cbn [bind]. eauto.
  - destruct (extract_curve' calib_data_tag tag') as [curve|e];
      cbn [bind]; [|eauto].
    now apply IH.
Qed.

(** The dictionary the extraction returns. *)
Lemma extract_calib_loop_channels (calib_data_tag : Element)
  (calib_data : calib_t) :
  extract_calib_loop' calib_data_tag channels [] = Ok calib_data ->
  exists r g b,
    extract_curve' calib_data_tag (qname wcs "RedTRC") = Ok r /\
    extract_curve' calib_data_tag (qname wcs "GreenTRC") = Ok g /\
    extract_curve' calib_data_tag (qname wcs "BlueTRC") = Ok b /\
    calib_data = [("r", r); ("g", g); ("b", b)]%string.
Proof.
  cbn [channels extract_calib_loop]. intros H.
  apply bind_ok in H as (r & Hr & H).
  apply bind_ok in H as (g & Hg & H).
  apply bind_ok in H as (b & Hb & H).
  apply Ok_inj in H. exists r, g, b. repeat split; try assumption.
  now subst calib_data.
Qed.

(** C6: a channel whose element is absent from [ParameterizedCurves] gets
    the identity curve (1, 0, 1), whatever the other channels hold, and
    its three words in the VCGT tag are 65535, 0 and 65535. *)
Theorem absent_channel_identity (cdmp_data : bytes) (text : string)
  (cdmp_root calib_data_tag : Element) (k : nat) (i tag : string) :
  decode_utf16 cdmp_data = Ok text ->
  ET_fromstring text = Ok cdmp_root ->
  find curves_path cdmp_root = Some calib_data_tag ->
  nth_error channels k = Some (i, tag) ->
  find [tag] calib_data_tag = None ->
  extract_curve' calib_data_tag tag = Ok identity_curve /\
  scaled_all identity_curve = Ok [65535; 0; 65535] /\
  forall calib_data,
    extract_calib_data' cdmp_data = Ok calib_data ->
    dict_get string_dec i calib_data = Some identity_curve /\
    forall data,
      generate_vcgt calib_data = Ok data ->
      slice (12 + 12 * Z.of_nat k) (24 + 12 * Z.of_nat k) data
      = words [65535; 0; 65535].
Proof.
  intros Hd Hx Hf Hk Habs.
  pose proof (extract_curve_absent _ _ Habs) as Hid.
  split; [exact Hid|]. split; [vm_compute; reflexivity|].
  intros calib_data H. unfold extract_calib_data in H.
  rewrite Hd in H. cbn [bind] in H. rewrite Hx in H. cbn [bind] in H.
  rewrite Hf in H.
  apply extract_calib_loop_channels in H as (r & g & b & Hr & Hg & Hb & ->).
  assert (Hgen : forall data,
             generate_vcgt [("r", r); ("g", g); ("b", b)]%string = Ok data ->
             exists nr ng nb,
               scaled_all r = Ok nr /\ scaled_all g = Ok ng /\
               scaled_all b = Ok nb /\
               len (words nr) = 12 /\ len (words ng) = 12 /\
               data = vcgt_prefix ++ words nr ++ words ng ++ words nb).
  { intros data Hdata.
    rewrite (generate_vcgt_eq _ r g b) in Hdata by reflexivity.
    apply bind_ok in Hdata as (ns & Hns & Hdata). apply Ok_inj in Hdata.
    apply scaled_all_app_inv in Hns as (nr & ns' & Hnr & Hns & ->).
    apply scaled_all_app_inv in Hns as (ng & nb & Hng & Hnb & ->).
    exists nr, ng, nb. rewrite !len_words. unfold len.
    rewrite (scaled_all_length _ _ Hnr), (scaled_all_length _ _ Hng).
    rewrite (extract_curve_length _ _ _ Hr), (extract_curve_length _ _ _ Hg).
    rewrite <- Hdata, !words_app. repeat split; auto. }
  assert (Hw : scaled_all identity_curve = Ok [65535; 0; 65535])
    by (vm_compute; reflexivity).
  destruct k as [|[|[|k]]]; [| | |destruct k; discriminate];
    cbn [nth_error channels] in Hk; injection Hk as <- <-.
  - assert (r = identity_curve) as -> by congruence.
    split; [reflexivity|]. intros data Hdata.
    apply Hgen in Hdata as (nr & ng & nb & Hnr & _ & _ & Lr & Lg & ->).
    assert (nr = [65535; 0; 65535]) as -> by congruence.
    apply (slice_app_mid vcgt_prefix _ (words ng ++ words nb));
      [reflexivity | rewrite Lr; reflexivity | reflexivity].
  - assert (g = identity_curve) as -> by congruence.
    split; [reflexivity|]. intros data Hdata.
    apply Hgen in Hdata as (nr & ng & nb & _ & Hng & _ & Lr & Lg & ->).
    assert (ng = [65535; 0; 65535]) as -> by congruence.
    apply (slice_app_mid (vcgt_prefix ++ words nr) _ (words nb)).
    + rewrite len_app, Lr. reflexivity.
    + rewrite Lg. reflexivity.
    + now rewrite <- app_assoc.
  - assert (b = identity_curve) as -> by congruence.
    split; [reflexivity|]. intros data Hdata.
    apply Hgen in Hdata as (nr & ng & nb & _ & _ & Hnb & Lr & Lg & ->).
    assert (nb = [65535; 0; 65535]) as -> by congruence.
    apply (slice_app_mid (vcgt_prefix ++ words nr ++ words ng) _ []).
    + rewrite !len_app, Lr, Lg. reflexivity.
    + reflexivity.
    + now rewrite app_nil_r, <- !app_assoc.
Qed.

Lemma parse_wcs_bad_signature (wcs_data : bytes) :
  slice 0 4 wcs_data <> b "MS10" ->
  parse_wcs wcs_data
  = Raise (if 32 <=? len wcs_data then AssertionError else StructError).
Proof.
  intros Hne. unfold parse_wcs.
  destruct (32 <=? len wcs_data) eqn:E.
  - apply Z.leb_le in E.
    rewrite unpack_from_fits by (try exact E; lia).
    cbn [unpack_fields bind].
    change (firstn 4 (skipn (Z.to_nat 0) wcs_data)) with (slice 0 4 wcs_data).
    destruct (bytes_eqb (slice 0 4 wcs_data) (b "MS10")) eqn:Eq;
      [apply bytes_eqb_eq in Eq; contradiction | reflexivity].
  - apply Z.leb_gt in E.
    rewrite unpack_from_short; [reflexivity | exact E].
Qed.

Lemma extract_calib_loop_first_failure (calib_data_tag : Element)
  (i tag : string) (after : list (string * string)) (e : exn) :
  extract_curve' calib_data_tag tag = Raise e ->
  forall before calib_data,
    Forall (fun c => exists curve,
                extract_curve' calib_data_tag (snd c) = Ok curve) before ->
    extract_calib_loop' calib_data_tag (before ++ (i, tag) :: after) calib_data
    = Raise e.
Proof.
  intros He before.
  induction before as [|[i' tag'] before IH]; intros calib_data Hok;
    cbn [app extract_calib_loop].
  - rewrite He. reflexivity.
  - inversion Hok as [|? ? [curve Hc] Hok']; subst. cbn [snd] in Hc.
    rewrite Hc. cbn [bind]. now apply IH.
Qed.

(** C9, amended: in a run that reaches the WCS tag, the run ends with an
    uncaught [AssertionError] before the output file is opened when the tag
    body holds the 32 bytes that are unpacked first and does not start with
    [MS10], when the decoded document has no
    [Calibration/AdapterGammaConfiguration/ParameterizedCurves] element, and
    when a channel element carries an attribute other than [Gamma],
    [Offset1] and [Gain] while the channels before it, in the order red,
    green, blue, give their curves.  A shorter body with a wrong signature
    ends the run with [struct.error]; a channel element with such an
    attribute always fails its own assertion, and the run ends with the
    exception of the first channel that fails, before the output file is
    opened. *)
Theorem malformed_wcs_aborts (prof_data : bytes) (tags : tags_t)
  (wcs_data : bytes) :
  check_signature prof_data = Ok true ->
  parse_tags prof_data = Ok tags ->
  dict_mem bytes_eq_dec vcgt tags = false ->
  dict_get bytes_eq_dec MS00 tags = Some wcs_data ->
  (slice 0 4 wcs_data <> b "MS10" ->
   main' prof_data
   = mkOutcome
       (Uncaught (if 32 <=? len wcs_data
                  then AssertionError else StructError))
       [] None) /\
  (forall cdmp_data camp_data gmmp_data text cdmp_root,
      parse_wcs wcs_data = Ok (cdmp_data, camp_data, gmmp_data) ->
      decode_utf16 cdmp_data = Ok text ->
      ET_fromstring text = Ok cdmp_root ->
      (find curves_path cdmp_root = None ->
       main' prof_data = mkOutcome (Uncaught AssertionError) [] None) /\
      (forall calib_data_tag before i tag after calib_tag key,
          find curves_path cdmp_root = Some calib_data_tag ->
          channels = before ++ (i, tag) :: after ->
          Forall (fun c => exists curve,
                      extract_curve' calib_data_tag (snd c) = Ok curve)
            before ->
          find [tag] calib_data_tag = Some calib_tag ->
          In key (map fst (attrib calib_tag)) ->
          ~ In key ["Gamma"; "Offset1"; "Gain"]%string ->
          main' prof_data = mkOutcome (Uncaught AssertionError) [] None) /\
      (forall calib_data_tag i tag calib_tag key,
          find curves_path cdmp_root = Some calib_data_tag ->
          In (i, tag) channels ->
          find [tag] calib_data_tag = Some calib_tag ->
          In key (map fst (attrib calib_tag)) ->
          ~ In key ["Gamma"; "Offset1"; "Gain"]%string ->
          extract_curve' calib_data_tag tag = Raise AssertionError /\
          aborts (main' prof_data))).
Proof.
  intros Hsig Ht Hv Hw. split.
  - intros Hne. pose proof (parse_wcs_bad_signature _ Hne) as Hp.
    unfold main. rewrite Hsig, Ht, Hv, Hw, Hp. reflexivity.
  - intros cdmp_data camp_data gmmp_data text cdmp_root Hp Hd Hx.
    assert (Hrun : forall calib_data_tag e,
               find curves_path cdmp_root = Some calib_data_tag ->
               extract_calib_loop' calib_data_tag channels [] = Raise e ->
               main' prof_data = mkOutcome (Uncaught e) [] None).
    { intros calib_data_tag e Hf He. unfold main.
      rewrite Hsig, Ht, Hv, Hw, Hp. cbn [bind].
      unfold extract_calib_data. rewrite Hd. cbn [bind].
      rewrite Hx. cbn [bind]. rewrite Hf, He. reflexivity. }
    split; [|split].
    + intros Hf. unfold main. rewrite Hsig, Ht, Hv, Hw, Hp. cbn [bind].
      unfold extract_calib_data. rewrite Hd. cbn [bind].
      rewrite Hx. cbn [bind]. rewrite Hf. reflexivity.
    + intros calib_data_tag before i tag after calib_tag key
        Hf Hch Hok Hel Hk Hbad.
      pose proof (extract_curve_bad_attribute _ _ _ _ Hel Hk Hbad) as Hc.
      apply (Hrun calib_data_tag); [exact Hf|]. rewrite Hch.
      now apply extract_calib_loop_first_failure.
    + intros calib_data_tag i tag calib_tag key Hf Hin Hel Hk Hbad.
      pose proof (extract_curve_bad_attribute _ _ _ _ Hel Hk Hbad) as Hc.
      split; [exact Hc|].
      destruct (extract_calib_loop_raises _ _ _ _ _ Hin Hc []) as [e He].
      exists e. now apply (Hrun calib_data_tag).
Qed.

End ExtractionFacts.

(** ** The theorems at the sample inputs *)

Lemma check_signature_accepts_iff_witness :
  check_signature sample_profile = Ok true /\
  check_signature (repeat x00 84) = Ok false.
Proof.
  split.
  - apply (proj1 (check_signature_accepts_iff sample_profile)).
    unfold header_accepts.
    repeat split; try (vm_compute; reflexivity). vm_compute. discriminate.
  - apply (proj2 (check_signature_accepts_iff (repeat x00 84))).
    + vm_compute. discriminate.
    + intros [H _]. vm_compute in H. discriminate H.
Defined.

Lemma output_declared_size_witness :
  exists tags vcgt_data body,
    parse_tags sample_profile = Ok tags /\
    generate_body (tags ++ [(vcgt, vcgt_data)]) = Ok body /\
    skipn 128 sample_output = body /\
    u32_at sample_output 0 = 128 + len body /\
    128 + len body = len sample_output /\
    0 < len sample_output /\
    len sample_output mod 4 = 0.
Proof.
  apply (output_declared_size sample_decode (sample_fromstring sample_document)
           sample_float sample_profile sample_output).
  vm_compute. reflexivity.
Defined.

Lemma output_tags_preserved_witness :
  exists tags vcgt_data,
    parse_tags sample_profile = Ok tags /\
    ~ In vcgt (map fst tags) /\
    parse_tags sample_output = Ok (tags ++ [(vcgt, vcgt_data)]).
Proof.
  apply (output_tags_preserved sample_decode (sample_fromstring sample_document)
           sample_float sample_profile sample_output).
  vm_compute. reflexivity.
Defined.

Lemma conversion_not_repeatable_witness :
  sample_main sample_document sample_output
  = mkOutcome (Returned 1) ["Profile already has VCGT"%string] None.
Proof.
  apply (conversion_not_repeatable sample_decode
           (sample_fromstring sample_document) sample_float sample_profile).
  vm_compute. reflexivity.
Defined.

Lemma vcgt_encoding_witness :
  generate_vcgt [("r", [float_2_2; float_0; float_1]);
                 ("g", identity_curve); ("b", identity_curve)]%string
  = Ok (vcgt_prefix ++ words [144177; 0; 65535; 65535; 0; 65535;
                              65535; 0; 65535]).
Proof.
  apply (proj1 vcgt_encoding _ [float_2_2; float_0; float_1]
           identity_curve identity_curve); try reflexivity.
  repeat constructor; vm_compute; reflexivity.
Defined.

Lemma missing_wcs_tag_witness :
  sample_main sample_document sample_profile_no_tags
  = mkOutcome (Returned 1) ["WCS tag is not present"%string] None /\
  sample_main sample_document sample_profile_no_tags
  <> mkOutcome (Returned 1) ["Invalid ICC profile"%string] None.
Proof.
  apply (missing_wcs_tag sample_decode (sample_fromstring sample_document)
           sample_float sample_profile_no_tags []);
    vm_compute; reflexivity.
Defined.

Lemma check_signature_minimum_length_witness :
  (check_signature [] = Raise StructError /\
   forall decode_utf16 ET_fromstring float_of_str,
     main decode_utf16 ET_fromstring float_of_str []
     = mkOutcome (Uncaught StructError) [] None) /\
  exists r, check_signature sample_profile = Ok r.
Proof.
  split.
  - apply (proj1 (check_signature_minimum_length [])). reflexivity.
  - apply (proj2 (check_signature_minimum_length sample_profile)).
    vm_compute. discriminate.
Defined.

Lemma absent_channel_identity_witness :
  extract_curve sample_float (sample_curves [sample_red]) (qname wcs "GreenTRC")
  = Ok identity_curve /\
  scaled_all identity_curve = Ok [65535; 0; 65535] /\
  forall calib_data,
    extract_calib_data sample_decode (sample_fromstring sample_document)
      sample_float [] = Ok calib_data ->
    dict_get string_dec "g"%string calib_data = Some identity_curve /\
    forall data,
      generate_vcgt calib_data = Ok data ->
      slice (12 + 12 * Z.of_nat 1) (24 + 12 * Z.of_nat 1) data
      = words [65535; 0; 65535].
Proof.
  apply (absent_channel_identity sample_decode
           (sample_fromstring sample_document) sample_float
           [] ""%string sample_document (sample_curves [sample_red])
           1 "g"%string (qname wcs "GreenTRC")); reflexivity.
Defined.

Lemma malformed_wcs_aborts_witness :
  sample_main sample_document sample_profile_bad_wcs
  = mkOutcome (Uncaught AssertionError) [] None /\
  sample_main sample_document_no_curves sample_profile
  = mkOutcome (Uncaught AssertionError) [] None /\
  sample_main sample_document_slope sample_profile
  = mkOutcome (Uncaught AssertionError) [] None /\
  (extract_curve sample_float (sample_curves [sample_red; sample_green_slope])
     (qname wcs "GreenTRC") = Raise AssertionError /\
   aborts (sample_main sample_document_slope sample_profile)).
Proof.
  assert (Hbad : ~ In "Slope"%string ["Gamma"; "Offset1"; "Gain"]%string)
    by (intros [H|[H|[H|[]]]]; discriminate H).
  split; [|split; [|split]].
  - assert (H : slice 0 4 (sample_wcs "MS11") <> b "MS10")
      by (vm_compute; discriminate).
    pose proof (proj1 (malformed_wcs_aborts sample_decode
                         (sample_fromstring sample_document) sample_float
                         sample_profile_bad_wcs
                         [(b "MS00", sample_wcs "MS11")] (sample_wcs "MS11")
                         eq_refl eq_refl eq_refl eq_refl) H) as E.
    replace (32 <=? len (sample_wcs "MS11")) with true in E
      by (vm_compute; reflexivity).
    exact E.
  - apply (proj2 (malformed_wcs_aborts sample_decode
                    (sample_fromstring sample_document_no_curves) sample_float
                    sample_profile sample_tags (sample_wcs "MS10")
                    eq_refl eq_refl eq_refl eq_refl)
             [] [] [] ""%string sample_document_no_curves
             eq_refl eq_refl eq_refl).
    reflexivity.
  - apply (proj1 (proj2 (proj2 (malformed_wcs_aborts sample_decode
                    (sample_fromstring sample_document_slope) sample_float
                    sample_profile sample_tags (sample_wcs "MS10")
                    eq_refl eq_refl eq_refl eq_refl)
             [] [] [] ""%string sample_document_slope
             eq_refl eq_refl eq_refl))
             (sample_curves [sample_red; sample_green_slope])
             [("r", qname wcs "RedTRC")]%string "g"%string
             (qname wcs "GreenTRC") [("b", qname wcs "BlueTRC")]%string
             sample_green_slope "Slope"%string).
    + reflexivity.
    + reflexivity.
    + constructor; [|constructor]. eexists. vm_compute. reflexivity.
    + reflexivity.
    + right. left. reflexivity.
    + exact Hbad.
  - apply (proj2 (proj2 (proj2 (malformed_wcs_aborts sample_decode
                    (sample_fromstring sample_document_slope) sample_float
                    sample_profile sample_tags (sample_wcs "MS10")
                    eq_refl eq_refl eq_refl eq_refl)
             [] [] [] ""%string sample_document_slope
             eq_refl eq_refl eq_refl)))
      with (i := "g"%string) (calib_tag := sample_green_slope)
           (key := "Slope"%string).
    + reflexivity.
    + right. left. reflexivity.
    + reflexivity.
    + right. left. reflexivity.
    + exact Hbad.
Defined.

(** C9, as stated, fails: with a WCS tag of 8 bytes that starts with [MS11]
    the run ends with [struct.error], and with a red gamma that is not a
    number and a green element that carries [Slope] it ends with
    [ValueError]; neither is the failed assertion. *)
Lemma malformed_wcs_other_exceptions :
  (dict_get bytes_eq_dec MS00
     [(b "MS00", b "MS11" ++ repeat x00 4)] = Some (b "MS11" ++ repeat x00 4) /\
   parse_tags sample_profile_short_wcs
   = Ok [(b "MS00", b "MS11" ++ repeat x00 4)] /\
   slice 0 4 (b "MS11" ++ repeat x00 4) <> b "MS10" /\
   sample_main sample_document sample_profile_short_wcs
   = mkOutcome (Uncaught StructError) [] None) /\
  (find [qname wcs "GreenTRC"]
     (sample_curves [sample_red_abc; sample_green_slope])
   = Some sample_green_slope /\
   In "Slope"%string (map fst (attrib sample_green_slope)) /\
   ~ In "Slope"%string ["Gamma"; "Offset1"; "Gain"]%string /\
   sample_main sample_document_abc_slope sample_profile
   = mkOutcome (Uncaught ValueError) [] None).
Proof.
  split; repeat split; try (vm_compute; reflexivity).
  - vm_compute. discriminate.
  - right. left. reflexivity.
  - intros [H|[H|[H|[]]]]; discriminate H.
Qed.

(** * Further properties of the program *)

(** ** Reading the tag table *)

Lemma int_from_bytes_nonneg (bs : bytes) : 0 <= int_from_bytes bs.
Proof.
  induction bs as [|x bs IH] using rev_ind; [reflexivity|].
  rewrite int_from_bytes_snoc. pose proof (byte_to_Z_range x). lia.
Qed.

Lemma u32_at_nonneg (d : bytes) (off : Z) : 0 <= u32_at d off.
Proof. apply int_from_bytes_nonneg. Qed.

Lemma unpack_entry (d : bytes) (i : Z) :
  0 <= i -> 132 + 12 * i + 12 <= len d ->
  unpack_from [FmtS 4; FmtI; FmtI] d (132 + 12 * i)
  = Ok [VBytes (entry_sig d i); VInt (entry_offset d i);
        VInt (entry_size d i)].
Proof.
  intros Hi Hlen.
  rewrite unpack_from_fits
    by (cbn [calcsize item_size]; change (Z.of_nat 4) with 4; lia).
  cbn [unpack_fields]. rewrite !skipn_skipn.
  unfold entry_sig, entry_offset, entry_size, u32_at, slice.
  repeat f_equal; lia.
Qed.

Lemma unpack_count (d : bytes) :
  132 <= len d -> unpack_from [FmtI] d 128 = Ok [VInt (u32_at d 128)].
Proof.
  intros Hlen. rewrite unpack_from_fits by (cbn [calcsize item_size]; lia).
  cbn [unpack_fields]. unfold u32_at, slice. repeat f_equal.
Qed.

Lemma parse_tags_loop_fits (d : bytes) (n : nat) :
  forall i res,
    0 <= i -> 132 + 12 * (i + Z.of_nat n) <= len d ->
    exists tags, parse_tags_loop d n i res = Ok tags.
Proof.
  induction n as [|n IH]; intros i res Hi Hlen; cbn [parse_tags_loop].
  - eauto.
  - rewrite unpack_entry by lia. cbn [bind]. apply IH; lia.
Qed.

Lemma parse_tags_loop_truncated (d : bytes) (n : nat) :
  forall i res,
    0 <= i -> 132 + 12 * i <= len d ->
    len d < 132 + 12 * (i + Z.of_nat n) ->
    parse_tags_loop d n i res = Raise StructError.
Proof.
  induction n as [|n IH]; intros i res Hi Hfit Hlen; cbn [parse_tags_loop].
  - lia.
  - destruct (Z_lt_le_dec (len d) (132 + 12 * i + 12)) as [Hs|Hl].
    + rewrite unpack_from_short
        by (cbn [calcsize item_size]; change (Z.of_nat 4) with 4; lia).
      reflexivity.
    + rewrite unpack_entry by lia. cbn [bind]. apply IH; lia.
Qed.

(** X1: [parse_tags] reads a table exactly when the input holds the count at
    offset 128 and the records the count announces; an input that is shorter
    raises [struct.error].  Where the records point is not checked. *)
Theorem parse_tags_succeeds_iff (prof_data : bytes) :
  ((exists tags, parse_tags prof_data = Ok tags) <->
   132 <= len prof_data /\
   132 + 12 * u32_at prof_data 128 <= len prof_data) /\
  (~ (132 <= len prof_data /\
      132 + 12 * u32_at prof_data 128 <= len prof_data) ->
   parse_tags prof_data = Raise StructError).
Proof.
  pose proof (u32_at_nonneg prof_data 128) as Hc.
  assert (Hfail : ~ (132 <= len prof_data /\
                     132 + 12 * u32_at prof_data 128 <= len prof_data) ->
                  parse_tags prof_data = Raise StructError).
  { intros Hn. unfold parse_tags.
    destruct (Z_lt_le_dec (len prof_data) 132) as [Hs|Hl].
    - rewrite unpack_from_short by (cbn [calcsize item_size]; lia).
      reflexivity.
    - rewrite unpack_count by exact Hl. cbn [bind].
      apply parse_tags_loop_truncated; lia. }
  split; [split|exact Hfail].
  - intros [tags Ht].
    destruct (Z_lt_le_dec (len prof_data) 132) as [Hs|Hl];
      [rewrite Hfail in Ht by lia; discriminate|].
    destruct (Z_lt_le_dec (len prof_data)
                (132 + 12 * u32_at prof_data 128)) as [Hs'|Hl'];
      [rewrite Hfail in Ht by lia; discriminate|].
    lia.
  - intros [Hl Hl']. unfold parse_tags.
    rewrite unpack_count by exact Hl. cbn [bind].
    apply parse_tags_loop_fits; lia.
Qed.

Lemma len_slice_le {A} (lo hi : Z) (data : list A) :
  len (slice lo hi data) <= len data /\
  (lo <= hi -> len (slice lo hi data) <= hi - lo).
Proof.
  unfold slice, len. rewrite length_firstn, length_skipn. lia.
Qed.

Lemma len_dict_set {K V} (K_eq_dec : forall x y : K, {x = y} + {x <> y})
  (k : K) (v : V) (d : @dict K V) :
  len d <= len (dict_set K_eq_dec k v d) <= len d + 1.
Proof.
  induction d as [|[k' v'] d IH]; cbn [dict_set].
  - rewrite len_cons. unfold len. simpl. lia.
  - destruct (K_eq_dec k k'); rewrite ?len_cons; lia.
Qed.

Lemma dict_set_values_Forall {K V}
  (K_eq_dec : forall x y : K, {x = y} + {x <> y})
  (P : V -> Prop) (k : K) (v : V) (d : @dict K V) :
  P v -> Forall (fun kv => P (snd kv)) d ->
  Forall (fun kv => P (snd kv)) (dict_set K_eq_dec k v d).
Proof.
  intros Hv. induction 1 as [|[k' v'] d Hx Hd IH]; cbn [dict_set].
  - repeat constructor. exact Hv.
  - destruct (K_eq_dec k k'); constructor; auto.
Qed.

Lemma parse_tags_loop_bounds (d : bytes) (n : nat) :
  forall i res tags,
    parse_tags_loop d n i res = Ok tags ->
    Forall (fun kv => len (snd kv) <= len d) res ->
    len tags <= len res + Z.of_nat n /\
    Forall (fun kv => len (snd kv) <= len d) tags.
Proof.
  induction n as [|n IH]; intros i res tags H Hres; cbn [parse_tags_loop] in H.
  - apply Ok_inj in H. subst. split; [lia | exact Hres].
  - apply bind_ok in H as (fields & Hf & H).
    apply unpack_from_ok in Hf as (_ & _ & ->).
    cbn [unpack_fields] in H.
    apply IH in H as [Hlen Hall].
    + split; [|exact Hall].
      match type of Hlen with
      | _ <= len (dict_set _ ?k ?v _) + _ =>
          pose proof (len_dict_set bytes_eq_dec k v res)
      end. unfold bytes in *. lia.
    + apply (dict_set_values_Forall bytes_eq_dec
               (fun v => len v <= len d)); [|exact Hres].
      apply len_slice_le.
Qed.

(** X2: the table [parse_tags] returns has pairwise distinct signatures of
    4 bytes each, at most as many tags as the count announces, and no tag
    longer than the input. *)
Theorem parse_tags_table_invariant (prof_data : bytes) (tags : tags_t) :
  parse_tags prof_data = Ok tags ->
  NoDup (map fst tags) /\
  Forall (fun kv => List.length (fst kv) = 4%nat) tags /\
  len tags <= u32_at prof_data 128 /\
  Forall (fun kv => len (snd kv) <= len prof_data) tags.
Proof.
  intros H. pose proof (parse_tags_wf _ _ H) as [[Hnd Hk] Hlen].
  split; [exact Hnd|]. split; [exact Hk|].
  unfold parse_tags in H. rewrite unpack_count in H by exact Hlen.
  cbn [bind] in H. apply parse_tags_loop_bounds in H; [|constructor].
  pose proof (u32_at_nonneg prof_data 128).
  change (len (@nil (bytes * bytes))) with 0 in H. destruct H as [H1 H2].
  split; [lia | exact H2].
Qed.

Lemma dict_get_set {K V} (K_eq_dec : forall x y : K, {x = y} + {x <> y})
  (k k' : K) (v : V) (d : @dict K V) :
  dict_get K_eq_dec k (dict_set K_eq_dec k' v d)
  = if K_eq_dec k k' then Some v else dict_get K_eq_dec k d.
Proof.
  induction d as [|[k0 v0] d IH]; cbn [dict_set dict_get].
  - reflexivity.
  - destruct (K_eq_dec k' k0) as [->|Hne]; cbn [dict_get].
    + destruct (K_eq_dec k k0); reflexivity.
    + rewrite IH. destruct (K_eq_dec k k0) as [->|Hne'];
        [|reflexivity].
      destruct (K_eq_dec k0 k'); [congruence | reflexivity].
Qed.

Lemma parse_tags_loop_lookup (d : bytes) (k : bytes) (n : nat) :
  forall i res tags,
    0 <= i ->
    parse_tags_loop d n i res = Ok tags ->
    dict_get bytes_eq_dec k tags
    = match lookup_entries d i n k with
      | Some v => Some v
      | None => dict_get bytes_eq_dec k res
      end.
Proof.
  induction n as [|n IH]; intros i res tags Hi H;
    cbn [parse_tags_loop lookup_entries] in *.
  - apply Ok_inj in H. now subst.
  - apply bind_ok in H as (fields & Hf & H).
    pose proof (unpack_from_ok _ _ _ _ Hf) as (_ & Hlen & _).
    cbn [calcsize item_size] in Hlen. change (Z.of_nat 4) with 4 in Hlen.
    rewrite unpack_entry in Hf by lia. apply Ok_inj in Hf. subst fields.
    apply IH in H; [|lia]. rewrite H.
    destruct (lookup_entries d (i + 1) n k); [reflexivity|].
    rewrite dict_get_set. fold (entry_data d i).
    destruct (bytes_eq_dec k (entry_sig d i)); reflexivity.
Qed.

(** X3: looking a signature up in the table [parse_tags] returns gives the
    bytes designated by the last record of the input with that signature
    (a later record replaces an earlier one), and nothing when no record
    has it. *)
Theorem parse_tags_lookup (prof_data : bytes) (tags : tags_t) (k : bytes) :
  parse_tags prof_data = Ok tags ->
  dict_get bytes_eq_dec k tags
  = lookup_entries prof_data 0 (Z.to_nat (u32_at prof_data 128)) k.
Proof.
  intros H. pose proof (parse_tags_wf _ _ H) as [_ Hlen].
  unfold parse_tags in H. rewrite unpack_count in H by exact Hlen.
  cbn [bind] in H.
  rewrite (parse_tags_loop_lookup _ k _ _ _ _ (Z.le_refl 0) H).
  now destruct (lookup_entries prof_data 0 _ k).
Qed.

Lemma lookup_entries_found (d : bytes) (k : bytes) (n : nat) :
  forall i j,
    i <= j < i + Z.of_nat n -> entry_sig d j = k ->
    lookup_entries d i n k <> None.
Proof.
  induction n as [|n IH]; intros i j Hj Hk; cbn [lookup_entries]; [lia|].
  destruct (lookup_entries d (i + 1) n k) eqn:E; [discriminate|].
  destruct (Z.eq_dec i j) as [->|Hne].
  - destruct (bytes_eq_dec k (entry_sig d j)); [discriminate | congruence].
  - exfalso. apply (IH (i + 1) j); [lia | exact Hk | exact E].
Qed.

(** ** Building the body *)

Lemma pack_raises (fmt : list item) :
  forall args e, pack fmt args = Raise e -> e = StructError.
Proof.
  induction fmt as [|it fmt IH]; intros args e H.
  - destruct args; cbn [pack] in H; [discriminate | congruence].
  - destruct it as [|n|n]; cbn [pack] in H.
    + destruct args as [|[z|bs] args]; try congruence.
      destruct (in_u32 z); [|congruence].
      destruct (pack fmt args) eqn:E; [discriminate|].
      cbn [bind] in H. injection H as <-. eapply IH. exact E.
    + destruct args as [|[z|bs] args]; try congruence.
      destruct (pack fmt args) eqn:E; [discriminate|].
      cbn [bind] in H. injection H as <-. eapply IH. exact E.
    + destruct (pack fmt args) eqn:E; [discriminate|].
      cbn [bind] in H. injection H as <-. eapply IH. exact E.
Qed.

Lemma generate_body_table_raises (items : tags_t) :
  forall data off e,
    generate_body_table items data off = Raise e -> e = StructError.
Proof.
  induction items as [|[tag val] items IH]; intros data off e H;
    cbn [generate_body_table] in H; [discriminate|].
  destruct (pack [FmtS 4; FmtI; FmtI]
              [VBytes tag; VInt off; VInt (len val)]) as [entry|e'] eqn:E.
  - cbn [bind] in H. eapply IH. exact H.
  - cbn [bind] in H. injection H as <-. eapply pack_raises. exact E.
Qed.

Lemma generate_body_table_ok (items : tags_t) :
  forall data off,
    Forall (fun kv => List.length (fst kv) = 4%nat) items ->
    table_ok items off ->
    generate_body_table items data off
    = Ok (data ++ table_bytes items off, off + data_len items).
Proof.
  induction items as [|[tag val] items IH]; intros data off Hk Hok;
    cbn [generate_body_table table_bytes data_len].
  - now rewrite app_nil_r, Z.add_0_r.
  - inversion Hk as [|? ? Ht Hk']; subst. destruct Hok as (Ho & Hl & Hok).
    rewrite pack_entry_ok by assumption. cbn [bind].
    fold (pad4 (len val)). rewrite IH by assumption.
    rewrite <- !app_assoc. do 2 f_equal. lia.
Qed.

Lemma generate_body_raises (tags : tags_t) (e : exn) :
  generate_body tags = Raise e -> e = StructError.
Proof.
  unfold generate_body. intros H.
  destruct (pack [FmtI] [VInt (len tags)]) as [cnt|e'] eqn:Ec.
  - cbn [bind] in H.
    destruct (generate_body_table tags cnt (132 + len tags * 12))
      as [[data off]|e'] eqn:Et; cbn [bind] in H; [discriminate|].
    injection H as <-. eapply generate_body_table_raises. exact Et.
  - cbn [bind] in H. injection H as <-. eapply pack_raises. exact Ec.
Qed.

Lemma generate_body_ok (tags : tags_t) :
  Forall (fun kv => List.length (fst kv) = 4%nat) tags ->
  in_u32 (len tags) = true ->
  table_ok tags (132 + len tags * 12) ->
  generate_body tags
  = Ok (int_to_bytes 4 (len tags)
          ++ table_bytes tags (132 + len tags * 12)
          ++ data_bytes (map snd tags)).
Proof.
  intros Hk Hn Hok. unfold generate_body.
  rewrite pack_u32_ok by exact Hn. cbn [bind].
  rewrite generate_body_table_ok by assumption. cbn [bind].
  now rewrite generate_body_data_layout, <- app_assoc.
Qed.

(** X4: for a table of 4-byte signatures, [generate_body] succeeds exactly
    when the number of tags, every offset and every length fit 32 unsigned
    bits, and raises [struct.error] otherwise; the body is the count, the
    records and the padded data, 4 + 12 n bytes plus the padded sizes, a
    multiple of 4. *)
Theorem generate_body_result (tags : tags_t) :
  Forall (fun kv => List.length (fst kv) = 4%nat) tags ->
  (in_u32 (len tags) = true /\ table_ok tags (132 + len tags * 12) ->
   generate_body tags
   = Ok (int_to_bytes 4 (len tags)
           ++ table_bytes tags (132 + len tags * 12)
           ++ data_bytes (map snd tags))) /\
  (~ (in_u32 (len tags) = true /\ table_ok tags (132 + len tags * 12)) ->
   generate_body tags = Raise StructError) /\
  (forall body,
      generate_body tags = Ok body ->
      len body = 4 + 12 * len tags + data_len tags /\
      len body mod 4 = 0).
Proof.
  intros Hk. split; [|split].
  - intros [Hn Hok]. now apply generate_body_ok.
  - intros Hn. destruct (generate_body tags) as [body|e] eqn:E.
    + apply generate_body_layout in E as (H1 & H2 & _); [|exact Hk]. tauto.
    + f_equal. eapply generate_body_raises. exact E.
  - intros body H. pose proof (len_generated_body _ _ Hk H) as Hlen.
    split; [exact Hlen|]. rewrite Hlen.
    pose proof (data_len_mod4 tags). Z.to_euclidean_division_equations. lia.
Qed.

Lemma table_ok_bound (items : tags_t) :
  forall off, 0 <= off -> off + data_len items < 2 ^ 32 -> table_ok items off.
Proof.
  induction items as [|[tag val] items IH]; intros off H0 H;
    cbn [table_ok data_len] in *; [exact I|].
  pose proof (pad4_spec (len val) (len_nonneg val)) as [Hp _].
  pose proof (data_len_nonneg items). pose proof (len_nonneg val).
  repeat split.
  - apply in_u32_iff. lia.
  - apply in_u32_iff. lia.
  - apply IH; lia.
Qed.

Lemma padded_eq (val : bytes) :
  padded val = val ++ repeat x00 (Z.to_nat (pad4 (len val) - len val)).
Proof.
  unfold padded, pad4. pose proof (len_nonneg val).
  pose proof (Z.mod_pos_bound (len val) 4).
  destruct (4 - len val mod 4 <? 4) eqn:E; do 2 f_equal.
  - apply Z.ltb_lt in E. Z.to_euclidean_division_equations. lia.
  - apply Z.ltb_ge in E.
    replace (len val + 3 - (len val + 3) mod 4 - len val) with 0
      by (Z.to_euclidean_division_equations; lia).
    reflexivity.
Qed.

Lemma created_layout (header body out : bytes) (tags : tags_t) :
  Forall (fun kv => List.length (fst kv) = 4%nat) tags ->
  len header = 128 ->
  generate_body tags = Ok body ->
  create_profile header body = Ok out ->
  exists hdr,
    len hdr = 132 /\
    table_ok tags (132 + len tags * 12) /\
    out = hdr ++ table_bytes tags (132 + len tags * 12)
              ++ data_bytes (map snd tags).
Proof.
  intros Hk Hh Hb Hc.
  apply generate_body_layout in Hb as (Hn & Hok & ->); [|exact Hk].
  apply create_profile_layout in Hc as (_ & ->).
  exists ((int_to_bytes 4
             (len (int_to_bytes 4 (len tags)
                     ++ table_bytes tags (132 + len tags * 12)
                     ++ data_bytes (map snd tags)) + 128)
             ++ skipn 4 header) ++ int_to_bytes 4 (len tags)).
  split; [|split; [exact Hok|]].
  - rewrite !len_app, !len_int_to_bytes. unfold len in *.
    rewrite length_skipn. lia.
  - now rewrite <- !app_assoc.
Qed.

(** X5: in a profile created from a 128-byte header and the body generated
    for a table of distinct 4-byte signatures, the [i]-th record holds the
    signature of the [i]-th tag, its unpadded length, and an offset that is a
    multiple of 4 and follows the padded data of the tags before it; the
    bytes at that offset are the tag, followed by zero bytes up to the next
    multiple of 4, all inside the profile. *)
Theorem created_table_entries (header body out : bytes) (tags : tags_t)
  (i : nat) (tag val : bytes) :
  tags_wf tags ->
  len header = 128 ->
  generate_body tags = Ok body ->
  create_profile header body = Ok out ->
  nth_error tags i = Some (tag, val) ->
  entry_sig out (Z.of_nat i) = tag /\
  entry_offset out (Z.of_nat i)
  = 132 + 12 * len tags + data_len (firstn i tags) /\
  entry_offset out (Z.of_nat i) mod 4 = 0 /\
  entry_size out (Z.of_nat i) = len val /\
  entry_data out (Z.of_nat i) = val /\
  slice (entry_offset out (Z.of_nat i) + len val)
    (entry_offset out (Z.of_nat i) + pad4 (len val)) out
  = repeat x00 (Z.to_nat (pad4 (len val) - len val)) /\
  entry_offset out (Z.of_nat i) + pad4 (len val) <= len out.
Proof.
  intros [_ Hk] Hh Hb Hc Hi.
  destruct (created_layout _ _ _ _ Hk Hh Hb Hc) as (hdr & Hhdr & Hok & Hout).
  apply nth_error_split in Hi as (l1 & l2 & Htags & Hl1).
  set (off0 := 132 + len tags * 12) in *.
  assert (Hk1 : Forall (fun kv => List.length (fst kv) = 4%nat) l1)
    by (rewrite Htags in Hk; now apply Forall_app in Hk as [Hk _]).
  assert (Ht : List.length tag = 4%nat).
  { rewrite Htags in Hk. apply Forall_app in Hk as [_ Hk]. now inversion Hk. }
  assert (Hok' : table_ok ((tag, val) :: l2) (off0 + data_len l1))
    by (apply table_ok_app; now rewrite <- Htags).
  destruct Hok' as (Ho & Hl & _).
  assert (Hfirst : firstn i tags = l1)
    by (rewrite Htags; now apply firstn_exact).
  assert (Hi' : Z.of_nat i = len l1) by (unfold len; now rewrite Hl1).
  pose proof (data_len_nonneg l1) as Hd1.
  pose proof (data_len_nonneg l2) as Hd2.
  pose proof (len_nonneg l1) as Hn1.
  pose proof (len_nonneg l2) as Hn2.
  pose proof (pad4_spec (len val) (len_nonneg val)) as [Hp Hp4].
  pose proof (len_nonneg val) as Hnv.
  assert (Hlt : len tags = len l1 + 1 + len l2)
    by (rewrite Htags, len_app, len_cons; lia).
  assert (Hlen : len out = off0 + data_len tags).
  { rewrite Hout, !len_app, len_table_bytes, len_data_bytes, Hhdr by exact Hk.
    unfold off0. lia. }
  assert (Hdl : data_len tags = data_len l1 + pad4 (len val) + data_len l2).
  { rewrite Htags, data_len_app. cbn [data_len]. lia. }
  assert (Hentry :
            unpack_from [FmtS 4; FmtI; FmtI] out (132 + 12 * Z.of_nat i)
            = Ok [VBytes tag; VInt (off0 + data_len l1); VInt (len val)]).
  { apply (unpack_from_packed [FmtS 4; FmtI; FmtI] _
             (hdr ++ table_bytes l1 off0)
             (tag ++ int_to_bytes 4 (off0 + data_len l1)
                  ++ int_to_bytes 4 (len val))
             (table_bytes l2 (off0 + data_len l1 + pad4 (len val))
                ++ data_bytes (map snd tags))).
    - rewrite Hout.
      replace (table_bytes tags off0)
        with (table_bytes (l1 ++ (tag, val) :: l2) off0)
        by now rewrite <- Htags.
      rewrite table_bytes_app. cbn [table_bytes]. now rewrite <- !app_assoc.
    - now apply pack_entry_ok.
    - cbn. auto.
    - rewrite len_app, len_table_bytes, Hhdr by exact Hk1. lia. }
  rewrite unpack_entry in Hentry by (unfold off0 in *; lia).
  apply Ok_inj in Hentry. injection Hentry as Es Eo Ez.
  assert (Edata : entry_data out (Z.of_nat i) = val).
  { unfold entry_data. rewrite Eo, Ez.
    apply (slice_app_mid
             (hdr ++ table_bytes tags off0 ++ data_bytes (map snd l1)) val
             (repeat x00 (Z.to_nat (pad4 (len val) - len val))
                ++ data_bytes (map snd l2))).
    - rewrite !len_app, len_table_bytes, len_data_bytes, Hhdr by exact Hk.
      unfold off0. lia.
    - reflexivity.
    - rewrite Hout.
      replace (map snd tags) with (map snd (l1 ++ (tag, val) :: l2))
        by now rewrite <- Htags.
      rewrite map_app, data_bytes_app. cbn [map snd data_bytes].
      rewrite padded_eq. now rewrite <- !app_assoc. }
  rewrite Eo, Hfirst. repeat split; try assumption.
  - unfold off0. lia.
  - pose proof (data_len_mod4 l1). unfold off0.
    Z.to_euclidean_division_equations. lia.
  - apply (slice_app_mid
             (hdr ++ table_bytes tags off0 ++ data_bytes (map snd l1) ++ val)
             _ (data_bytes (map snd l2))).
    + rewrite !len_app, len_table_bytes, len_data_bytes, Hhdr by exact Hk.
      unfold off0. lia.
    + rewrite len_repeat, Z2Nat.id by lia. lia.
    + rewrite Hout.
      replace (map snd tags) with (map snd (l1 ++ (tag, val) :: l2))
        by now rewrite <- Htags.
      rewrite map_app, data_bytes_app. cbn [map snd data_bytes].
      rewrite padded_eq. now rewrite <- !app_assoc.
  - lia.
Qed.

(** ** The header check reads the header only *)

(** X6: the header check looks at the length of the input and at its first
    84 bytes only: two inputs that agree on both get the same answer. *)
Theorem check_signature_reads_header (d d' : bytes) :
  len d = len d' -> firstn 84 d = firstn 84 d' ->
  check_signature d = check_signature d'.
Proof.
  intros Hlen Hpre.
  destruct (Z_lt_le_dec (len d) 84) as [Hs|Hl].
  - rewrite !check_signature_short by lia. reflexivity.
  - rewrite !check_signature_long by lia. f_equal.
    assert (Hsl : forall lo hi, 0 <= lo -> hi <= 84 ->
                                slice lo hi d = slice lo hi d').
    { intros lo hi H0 Hhi.
      rewrite <- (slice_firstn lo hi 84 d), <- (slice_firstn lo hi 84 d')
        by lia.
      now rewrite Hpre. }
    unfold header_checks, u32_at. rewrite Hlen.
    rewrite !Hsl by lia. reflexivity.
Qed.

(** ** The WCS tag *)

(** X7: [parse_wcs] raises [struct.error] on a body shorter than 32 bytes,
    fails its assertion when the first four bytes are not [MS10], and
    otherwise returns the three blocks located by the offsets and sizes at
    bytes 8 to 32; a block that reaches past the end of the body is cut
    short, not an error, so no block is longer than its declared size or
    than the body. *)
Theorem parse_wcs_cases (wcs_data : bytes) :
  (len wcs_data < 32 -> parse_wcs wcs_data = Raise StructError) /\
  (32 <= len wcs_data -> slice 0 4 wcs_data <> b "MS10" ->
   parse_wcs wcs_data = Raise AssertionError) /\
  (32 <= len wcs_data -> slice 0 4 wcs_data = b "MS10" ->
   parse_wcs wcs_data
   = Ok (slice (u32_at wcs_data 8)
           (u32_at wcs_data 8 + u32_at wcs_data 12) wcs_data,
         slice (u32_at wcs_data 16)
           (u32_at wcs_data 16 + u32_at wcs_data 20) wcs_data,
         slice (u32_at wcs_data 24)
           (u32_at wcs_data 24 + u32_at wcs_data 28) wcs_data)) /\
  (forall cdmp_data camp_data gmmp_data,
      parse_wcs wcs_data = Ok (cdmp_data, camp_data, gmmp_data) ->
      len cdmp_data <= Z.min (u32_at wcs_data 12) (len wcs_data) /\
      len camp_data <= Z.min (u32_at wcs_data 20) (len wcs_data) /\
      len gmmp_data <= Z.min (u32_at wcs_data 28) (len wcs_data)).
Proof.
  assert (Hok : 32 <= len wcs_data -> slice 0 4 wcs_data = b "MS10" ->
                parse_wcs wcs_data
                = Ok (slice (u32_at wcs_data 8)
                        (u32_at wcs_data 8 + u32_at wcs_data 12) wcs_data,
                      slice (u32_at wcs_data 16)
                        (u32_at wcs_data 16 + u32_at wcs_data 20) wcs_data,
                      slice (u32_at wcs_data 24)
                        (u32_at wcs_data 24 + u32_at wcs_data 28) wcs_data)).
  { intros Hlen Hsig. unfold parse_wcs.
    rewrite unpack_from_fits by (try exact Hlen; lia).
    cbn [unpack_fields bind].
    change (firstn 4 (skipn (Z.to_nat 0) wcs_data))
      with (slice 0 4 wcs_data).
    rewrite Hsig, (proj2 (bytes_eqb_eq _ _) eq_refl).
    cbn [assert bind]. rewrite !skipn_skipn.
    unfold u32_at, slice. repeat f_equal; lia. }
  split; [|split; [|split; [exact Hok|]]].
  - intros Hs. unfold parse_wcs.
    rewrite unpack_from_short; [reflexivity | exact Hs].
  - intros Hl Hne. rewrite parse_wcs_bad_signature by exact Hne.
    apply Z.leb_le in Hl. now rewrite Hl.
  - intros cdmp_data camp_data gmmp_data H.
    destruct (Z_lt_le_dec (len wcs_data) 32) as [Hs|Hl].
    { unfold parse_wcs in H. rewrite unpack_from_short in H by exact Hs.
      discriminate. }
    destruct (bytes_eq_dec (slice 0 4 wcs_data) (b "MS10")) as [Hsig|Hne].
    + rewrite Hok in H by assumption. apply Ok_inj in H.
      injection H as <- <- <-.
      pose proof (u32_at_nonneg wcs_data 12).
      pose proof (u32_at_nonneg wcs_data 20).
      pose proof (u32_at_nonneg wcs_data 28).
      repeat split; apply Z.min_glb;
        match goal with
        | |- len (slice ?lo ?hi ?d) <= _ =>
            pose proof (len_slice_le lo hi d); lia
        end.
    + rewrite parse_wcs_bad_signature in H by exact Hne. discriminate.
Qed.

(** ** The curve of a channel *)

Lemma difference_empty_iff (keys allowed : list string) :
  (len (difference keys allowed) =? 0) = true
  <-> Forall (fun k => In k allowed) keys.
Proof.
  split.
  - intros H. apply Forall_forall. intros k Hk.
    destruct (in_dec string_dec k allowed) as [Hin|Hout]; [exact Hin|].
    rewrite (in_difference k) in H by assumption. discriminate.
  - intros H. unfold difference.
    replace (filter (fun k => negb (existsb (String.eqb k) allowed)) keys)
      with (@nil string); [reflexivity|].
    induction H as [|k keys Hk _ IH]; [reflexivity|].
    cbn [filter].
    replace (existsb (String.eqb k) allowed) with true; [exact IH|].
    symmetry. apply existsb_exists. exists k. split; [exact Hk|].
    apply String.eqb_refl.
Qed.

Lemma create_profile_raises (header body : bytes) (e : exn) :
  create_profile header body = Raise e -> e = StructError.
Proof.
  unfold create_profile. intros H.
  destruct (pack [FmtI] [VInt (len body + 128)]) as [size|e'] eqn:E;
    cbn [bind] in H; [discriminate|].
  injection H as <-. eapply pack_raises. exact E.
Qed.

Section RunFacts.

Variable decode_utf16 : bytes -> result string.
Variable ET_fromstring : string -> result Element.
Variable float_of_str : string -> result float.

Local Abbreviation main' := (main decode_utf16 ET_fromstring float_of_str).
Local Abbreviation extract_calib_data' :=
  (extract_calib_data decode_utf16 ET_fromstring float_of_str).
Local Abbreviation extract_curve' := (extract_curve float_of_str).
Local Abbreviation get_float' := (get_float float_of_str).

(** X8: for a channel whose element is present, the assertion holds exactly
    when every attribute is one of [Gamma], [Gain] and [Offset1]; then the
    curve is read in the order gamma, offset, gain, each attribute that is
    missing taking its own default, and the first value that [float]
    refuses ends the extraction with its exception. *)
Theorem extract_curve_present (calib_data_tag calib_tag : Element)
  (tag : string) :
  find [tag] calib_data_tag = Some calib_tag ->
  (Forall (fun k => In k allowed_keys) (map fst (attrib calib_tag)) ->
   extract_curve' calib_data_tag tag
   = (gamma <- get_float' (attrib calib_tag) "Gamma" 1 ;;
      offset <- get_float' (attrib calib_tag) "Offset1" 0 ;;
      gain <- get_float' (attrib calib_tag) "Gain" 1 ;;
      Ok [gamma; offset; gain])) /\
  (~ Forall (fun k => In k allowed_keys) (map fst (attrib calib_tag)) ->
   extract_curve' calib_data_tag tag = Raise AssertionError).
Proof.
  intros Hf. unfold extract_curve. rewrite Hf. split.
  - intros Hall. apply difference_empty_iff in Hall.
    unfold allowed_keys in Hall. rewrite Hall. cbn [assert bind].
    cbn [curve_keys get_floats].
    destruct (get_float' (attrib calib_tag) "Gamma" 1); cbn [bind];
      [|reflexivity].
    destruct (get_float' (attrib calib_tag) "Offset1" 0); cbn [bind];
      [|reflexivity].
    destruct (get_float' (attrib calib_tag) "Gain" 1); reflexivity.
  - intros Hn.
    destruct (len (difference (map fst (attrib calib_tag))
                     ["Gamma"; "Gain"; "Offset1"]%string) =? 0) eqn:E;
      [|reflexivity].
    apply difference_empty_iff in E. contradiction.
Qed.

Lemma extract_calib_data_channels (cdmp_data : bytes) (calib_data : calib_t) :
  extract_calib_data' cdmp_data = Ok calib_data ->
  exists r g b,
    calib_data = [("r", r); ("g", g); ("b", b)]%string /\
    List.length r = 3%nat /\ List.length g = 3%nat /\ List.length b = 3%nat.
Proof.
  unfold extract_calib_data. intros H.
  apply bind_ok in H as (text & _ & H).
  apply bind_ok in H as (cdmp_root & _ & H).
  destruct (find curves_path cdmp_root) as [calib_data_tag|]; [|discriminate].
  apply extract_calib_loop_channels in H as (r & g & b & Hr & Hg & Hb & ->).
  exists r, g, b. split; [reflexivity|].
  repeat split; eapply extract_curve_length; eassumption.
Qed.

Lemma extracted_vcgt_length (cdmp_data : bytes) (calib_data : calib_t)
  (data : bytes) :
  extract_calib_data' cdmp_data = Ok calib_data ->
  generate_vcgt calib_data = Ok data ->
  exists ns, List.length ns = 9%nat /\ data = vcgt_prefix ++ words ns.
Proof.
  intros He Hg.
  apply extract_calib_data_channels in He as (r & g & b & -> & Lr & Lg & Lb).
  rewrite (generate_vcgt_eq _ r g b) in Hg by reflexivity.
  apply bind_ok in Hg as (ns & Hns & Hg). apply Ok_inj in Hg.
  exists ns. split; [|now symmetry].
  rewrite (scaled_all_length _ _ Hns), !length_app. lia.
Qed.

(** X9: the dictionary [extract_calib_data] returns has exactly the keys
    [r], [g] and [b], in this order, each with three values; so
    [generate_vcgt] never misses a key on it, and the tag it builds is 48
    bytes long: the 12-byte prefix and nine words. *)
Theorem extracted_vcgt_shape (cdmp_data : bytes) (calib_data : calib_t) :
  extract_calib_data' cdmp_data = Ok calib_data ->
  (exists r g b,
      calib_data = [("r", r); ("g", g); ("b", b)]%string /\
      List.length r = 3%nat /\ List.length g = 3%nat /\
      List.length b = 3%nat) /\
  generate_vcgt calib_data <> Raise KeyError /\
  (forall data,
      generate_vcgt calib_data = Ok data ->
      len data = 48 /\ slice 0 12 data = vcgt_prefix).
Proof.
  intros He.
  pose proof (extract_calib_data_channels _ _ He)
    as (r & g & b & E & Lr & Lg & Lb).
  split; [now exists r, g, b|]. split.
  - subst calib_data. rewrite (generate_vcgt_eq _ r g b) by reflexivity.
    destruct (scaled_all (r ++ g ++ b)) as [ns|e] eqn:Es; cbn [bind];
      [discriminate|].
    apply scaled_all_raises in Es. intros [= ->].
    destruct Es as [Es|[Es|Es]]; discriminate Es.
  - intros data Hg.
    destruct (extracted_vcgt_length _ _ _ He Hg) as (ns & Hn & ->). split.
    + rewrite len_app, len_words. unfold len. rewrite Hn. reflexivity.
    + apply (slice_app_mid [] vcgt_prefix (words ns)); reflexivity.
Qed.

(** X10: an input of at least 84 bytes whose header misses one of the
    conditions of the header check ends with "Invalid ICC profile" and
    result 1, and the output file is never opened. *)
Theorem invalid_header_rejected (prof_data : bytes) :
  84 <= len prof_data -> ~ header_accepts prof_data ->
  main' prof_data
  = mkOutcome (Returned 1) ["Invalid ICC profile"%string] None.
Proof.
  intros Hlen Hn. unfold main. rewrite check_signature_long by exact Hlen.
  destruct (header_checks prof_data) eqn:E; [|reflexivity].
  apply header_checks_accepts in E. contradiction.
Qed.

(** X11: when the header is accepted and the tag table fits the input, one
    record with the signature [vcgt] anywhere in the table is enough for the
    run to end with "Profile already has VCGT" and result 1, whatever the
    other records and the WCS tag hold. *)
Theorem vcgt_record_rejected (prof_data : bytes) (i : Z) :
  check_signature prof_data = Ok true ->
  132 + 12 * u32_at prof_data 128 <= len prof_data ->
  0 <= i < u32_at prof_data 128 ->
  entry_sig prof_data i = vcgt ->
  main' prof_data
  = mkOutcome (Returned 1) ["Profile already has VCGT"%string] None.
Proof.
  intros Hsig Hfit Hi Hk.
  assert (Hlen : 132 <= len prof_data) by lia.
  destruct (parse_tags_loop_fits prof_data
              (Z.to_nat (u32_at prof_data 128)) 0 [])
    as [tags Ht]; [lia | lia |].
  assert (Hp : parse_tags prof_data = Ok tags).
  { unfold parse_tags. rewrite unpack_count by exact Hlen. exact Ht. }
  unfold main. rewrite Hsig, Hp.
  replace (dict_mem bytes_eq_dec vcgt tags) with true; [reflexivity|].
  unfold dict_mem.
  rewrite (parse_tags_loop_lookup _ vcgt _ _ _ _ (Z.le_refl 0) Ht).
  pose proof (lookup_entries_found prof_data vcgt
                (Z.to_nat (u32_at prof_data 128)) 0 i) as Hfound.
  destruct (lookup_entries prof_data 0 _ vcgt); [reflexivity|].
  exfalso. apply Hfound; [lia | exact Hk | reflexivity].
Qed.

(** X12: a successful conversion carries bytes 4 to 128 of the input, every
    header field but the size, into the output unchanged. *)
Theorem output_header_preserved (prof_data out : bytes) :
  main' prof_data = mkOutcome (Returned 0) [] (Some out) ->
  forall lo hi, 4 <= lo -> lo <= hi -> hi <= 128 ->
                slice lo hi out = slice lo hi prof_data.
Proof.
  intros H lo hi Hlo Hlh Hhi.
  apply main_success_layout in H
    as (tags & vcgt_data & body & Ht & _ & _ & _ & _ & _ & _ & Hout & _).
  pose proof (parse_tags_wf _ _ Ht) as [_ Hlen].
  rewrite Hout. apply created_header_slice; try lia.
  apply len_int_to_bytes.
Qed.

Lemma main_builds (prof_data wcs_data cdmp_data camp_data gmmp_data : bytes)
  (tags : tags_t) (calib_data : calib_t) (vcgt_data : bytes) :
  check_signature prof_data = Ok true ->
  parse_tags prof_data = Ok tags ->
  dict_mem bytes_eq_dec vcgt tags = false ->
  dict_get bytes_eq_dec MS00 tags = Some wcs_data ->
  parse_wcs wcs_data = Ok (cdmp_data, camp_data, gmmp_data) ->
  extract_calib_data' cdmp_data = Ok calib_data ->
  generate_vcgt calib_data = Ok vcgt_data ->
  main' prof_data
  = match
      body <- generate_body (tags ++ [(vcgt, vcgt_data)]) ;;
      create_profile (slice 0 128 prof_data) body
    with
    | Raise e => mkOutcome (Uncaught e) [] (Some [])
    | Ok data => mkOutcome (Returned 0) [] (Some data)
    end.
Proof.
  intros Hsig Ht Hv Hw Hp He Hg. unfold main.
  rewrite Hsig, Ht, Hv, Hw, Hp. cbn [bind]. rewrite He. cbn [bind].
  rewrite Hg. cbn [bind].
  rewrite dict_set_new
    by (apply (proj1 (dict_mem_false bytes_eq_dec vcgt tags)); exact Hv).
  reflexivity.
Qed.

(** X13: a profile that passes the header check, has no [vcgt] tag, and
    whose WCS tag parses, yields curves and encodes, is converted whenever
    the output stays below 4 GiB; the output is then 192 bytes plus 12 bytes
    and the padded size for each tag of the input. *)
Theorem conversion_succeeds
  (prof_data wcs_data cdmp_data camp_data gmmp_data : bytes)
  (tags : tags_t) (calib_data : calib_t) (vcgt_data : bytes) :
  check_signature prof_data = Ok true ->
  parse_tags prof_data = Ok tags ->
  dict_mem bytes_eq_dec vcgt tags = false ->
  dict_get bytes_eq_dec MS00 tags = Some wcs_data ->
  parse_wcs wcs_data = Ok (cdmp_data, camp_data, gmmp_data) ->
  extract_calib_data' cdmp_data = Ok calib_data ->
  generate_vcgt calib_data = Ok vcgt_data ->
  192 + 12 * len tags + data_len tags < 2 ^ 32 ->
  exists out,
    main' prof_data = mkOutcome (Returned 0) [] (Some out) /\
    len out = 192 + 12 * len tags + data_len tags.
Proof.
  intros Hsig Ht Hv Hw Hp He Hg Hfit.
  rewrite (main_builds _ _ _ _ _ _ _ _ Hsig Ht Hv Hw Hp He Hg).
  pose proof (parse_tags_wf _ _ Ht) as [[_ Hk] Hlen].
  destruct (extracted_vcgt_length _ _ _ He Hg) as (ns & Hns & Hdata).
  assert (Hvl : len vcgt_data = 48).
  { rewrite Hdata, len_app, len_words. unfold len. rewrite Hns. reflexivity. }
  set (tags' := tags ++ [(vcgt, vcgt_data)]).
  assert (Hk' : Forall (fun kv => List.length (fst kv) = 4%nat) tags').
  { apply Forall_app. split; [exact Hk|]. repeat constructor. }
  assert (Hl' : len tags' = len tags + 1)
    by (unfold tags'; rewrite len_app; reflexivity).
  assert (Hd' : data_len tags' = data_len tags + 48).
  { unfold tags'. rewrite data_len_app. cbn [data_len]. rewrite Hvl.
    reflexivity. }
  pose proof (len_nonneg tags) as Hn. pose proof (data_len_nonneg tags) as Hd.
  assert (Hb : generate_body tags'
               = Ok (int_to_bytes 4 (len tags')
                       ++ table_bytes tags' (132 + len tags' * 12)
                       ++ data_bytes (map snd tags'))).
  { apply generate_body_ok; [exact Hk' | apply in_u32_iff; lia |].
    apply table_ok_bound; lia. }
  rewrite Hb. cbn [bind].
  set (body := int_to_bytes 4 (len tags')
                 ++ table_bytes tags' (132 + len tags' * 12)
                 ++ data_bytes (map snd tags')) in *.
  assert (Hbl : len body = 4 + 12 * len tags' + data_len tags')
    by (apply len_generated_body; assumption).
  unfold create_profile. rewrite pack_u32_ok by (apply in_u32_iff; lia).
  cbn [bind]. eexists. split; [reflexivity|].
  rewrite !len_app, len_int_to_bytes, Hbl. unfold len in *.
  rewrite length_skipn. unfold slice. rewrite length_firstn, length_skipn.
  lia.
Qed.

Lemma main_success_size (prof_data out : bytes) :
  main' prof_data = mkOutcome (Returned 0) [] (Some out) ->
  192 <= len out /\ len out mod 4 = 0 /\ u32_at out 0 = len out.
Proof.
  intros H.
  apply main_success_inv in H
    as (tags & vcgt_data & body & _ & Ht & _
        & (w & c & a & g & calib & _ & _ & He & Hg) & Hb & Hc).
  pose proof (parse_tags_wf _ _ Ht) as [[_ Hk] Hlen].
  destruct (extracted_vcgt_length _ _ _ He Hg) as (ns & Hns & Hdata).
  assert (Hvl : len vcgt_data = 48).
  { rewrite Hdata, len_app, len_words. unfold len. rewrite Hns. reflexivity. }
  assert (Hk' : Forall (fun kv => List.length (fst kv) = 4%nat)
                  (tags ++ [(vcgt, vcgt_data)])).
  { apply Forall_app. split; [exact Hk|]. repeat constructor. }
  pose proof (len_generated_body _ _ Hk' Hb) as Hbl.
  rewrite len_app, data_len_app in Hbl. cbn [data_len] in Hbl.
  rewrite Hvl in Hbl. change (pad4 48) with 48 in Hbl.
  change (len [(vcgt, vcgt_data)]) with 1 in Hbl.
  pose proof (len_nonneg tags). pose proof (data_len_nonneg tags).
  pose proof (data_len_mod4 tags) as Hm.
  apply create_profile_layout in Hc as (Hn & ->).
  assert (Hout : len (int_to_bytes 4 (len body + 128)
                        ++ skipn 4 (slice 0 128 prof_data) ++ body)
                 = 128 + len body).
  { rewrite !len_app, len_int_to_bytes. unfold len in *.
    rewrite length_skipn. unfold slice.
    rewrite length_firstn, length_skipn. lia. }
  rewrite u32_at_start by exact Hn. rewrite Hout.
  repeat split; try lia.
  Z.to_euclidean_division_equations. lia.
Qed.

(** X14: every run ends in one of four ways: with an exception before the
    output file is opened; with result 1, one of the three messages and no
    output file; with [struct.error] while the output is built, which leaves
    the output file empty; or with result 0, nothing printed and, in the
    output file, a profile of at least 192 bytes whose length is a multiple
    of 4 and stands in its size field. *)
Theorem main_outcomes (prof_data : bytes) :
  (exists e, main' prof_data = mkOutcome (Uncaught e) [] None) \/
  (exists msg,
      main' prof_data = mkOutcome (Returned 1) [msg] None /\
      In msg ["Invalid ICC profile"; "Profile already has VCGT";
              "WCS tag is not present"]%string) \/
  main' prof_data = mkOutcome (Uncaught StructError) [] (Some []) \/
  (exists out,
      main' prof_data = mkOutcome (Returned 0) [] (Some out) /\
      192 <= len out /\ len out mod 4 = 0 /\ u32_at out 0 = len out).
Proof.
  destruct (main' prof_data) as [st msgs file] eqn:Hmain.
  pose proof Hmain as Hrun. unfold main in Hrun.
  destruct (check_signature prof_data) as [[|]|e] eqn:Hsig.
  2:{ right. left. eexists. split; [now rewrite <- Hrun|]. now left. }
  2:{ left. exists e. now rewrite <- Hrun. }
  destruct (parse_tags prof_data) as [tags|e] eqn:Ht.
  2:{ left. exists e. now rewrite <- Hrun. }
  destruct (dict_mem bytes_eq_dec vcgt tags) eqn:Hv.
  { right. left. eexists. split; [now rewrite <- Hrun|]. right. now left. }
  destruct (dict_get bytes_eq_dec MS00 tags) as [wcs_data|] eqn:Hw.
  2:{ right. left. eexists. split; [now rewrite <- Hrun|].
      right. right. now left. }
  match type of Hrun with
  | match ?m with _ => _ end = _ => destruct m as [tags'|e] eqn:Hconv
  end.
  2:{ left. exists e. now rewrite <- Hrun. }
  match type of Hrun with
  | match ?m with _ => _ end = _ => destruct m as [data|e] eqn:Hbuild
  end.
  - right. right. right. exists data. split; [now rewrite <- Hrun|].
    rewrite <- Hrun in Hmain. exact (main_success_size _ _ Hmain).
  - right. right. left. rewrite <- Hrun. do 3 f_equal.
    destruct (generate_body tags') as [body|e'] eqn:Hb; cbn [bind] in Hbuild.
    + now apply create_profile_raises in Hbuild.
    + injection Hbuild as <-. now apply generate_body_raises in Hb.
Qed.

End RunFacts.

(** ** Reading the VCGT tag back *)

Lemma scaled_in_u32 (v : float) (n : Z) : scaled v = Ok n -> in_u32 n = true.
Proof.
  unfold scaled. intros H. apply bind_ok in H as (m & _ & H).
  destruct (in_u32 m) eqn:E; [|discriminate]. apply Ok_inj in H. now subst.
Qed.

Lemma scaled_all_in_u32 (vs : list float) :
  forall ns, scaled_all vs = Ok ns -> Forall (fun n => in_u32 n = true) ns.
Proof.
  induction vs as [|v vs IH]; intros ns H; cbn [scaled_all] in H.
  - apply Ok_inj in H. subst. constructor.
  - apply bind_ok in H as (n & Hn & H). apply bind_ok in H as (ns' & Hns & H).
    apply Ok_inj in H. subst ns. constructor.
    + eapply scaled_in_u32. exact Hn.
    + now apply IH.
Qed.

(** X15: when every value of the three channels has a product that fits,
    [generate_vcgt] returns 12 bytes and one word for each value, and the
    word number [k], read as an unsigned 32-bit big-endian integer at offset
    12 + 4 k, is the integer [int(v * 65535)] of the value number [k] in the
    order red, green, blue. *)
Theorem vcgt_words_read_back (calib_data : calib_t) (r g b : list float)
  (ns : list Z) :
  dict_get string_dec "r"%string calib_data = Some r ->
  dict_get string_dec "g"%string calib_data = Some g ->
  dict_get string_dec "b"%string calib_data = Some b ->
  scaled_all (r ++ g ++ b) = Ok ns ->
  exists data,
    generate_vcgt calib_data = Ok data /\
    len data = 12 + 4 * len (r ++ g ++ b) /\
    forall k n, nth_error ns k = Some n ->
                u32_at data (12 + 4 * Z.of_nat k) = n.
Proof.
  intros Hr Hg Hb Hns. exists (vcgt_prefix ++ words ns).
  split; [|split].
  - rewrite (generate_vcgt_eq _ _ _ _ Hr Hg Hb), Hns. reflexivity.
  - rewrite len_app, len_words. unfold len.
    rewrite (scaled_all_length _ _ Hns). reflexivity.
  - intros k n Hk. apply nth_error_split in Hk as (l1 & l2 & -> & Hl1).
    apply scaled_all_in_u32 in Hns.
    apply Forall_app in Hns as [_ Hns]. inversion Hns as [|? ? Hn _]; subst.
    unfold u32_at.
    rewrite (slice_app_mid (vcgt_prefix ++ words l1) (int_to_bytes 4 n)
               (words l2)).
    + now apply u32_round_trip.
    + rewrite len_app, len_words. unfold len. reflexivity.
    + now rewrite len_int_to_bytes.
    + rewrite words_app. unfold words at 2. cbn [map List.concat].
      fold (words l2). now rewrite <- !app_assoc.
Qed.

(** ** The further properties at the sample inputs *)

Lemma parse_tags_succeeds_iff_witness :
  (exists tags, parse_tags sample_profile = Ok tags) /\
  parse_tags sample_profile_short = Raise StructError /\
  parse_tags sample_profile_truncated = Raise StructError.
Proof.
  split; [|split].
  - apply (proj2 (proj1 (parse_tags_succeeds_iff sample_profile))).
    split; vm_compute; discriminate.
  - apply (proj2 (parse_tags_succeeds_iff sample_profile_short)).
    intros [H _]. vm_compute in H. apply H. reflexivity.
  - apply (proj2 (parse_tags_succeeds_iff sample_profile_truncated)).
    intros [_ H]. vm_compute in H. apply H. reflexivity.
Defined.

Lemma parse_tags_table_invariant_witness :
  NoDup (map fst sample_tags) /\
  Forall (fun kv => List.length (fst kv) = 4%nat) sample_tags /\
  len sample_tags <= u32_at sample_profile 128 /\
  Forall (fun kv => len (snd kv) <= len sample_profile) sample_tags.
Proof.
  apply (parse_tags_table_invariant sample_profile sample_tags).
  vm_compute. reflexivity.
Defined.

Lemma parse_tags_lookup_witness :
  dict_get bytes_eq_dec (b "MS00") [(b "MS00", sample_wcs "MS10")]
  = lookup_entries (sample_profile_two "MS00") 0
      (Z.to_nat (u32_at (sample_profile_two "MS00") 128)) (b "MS00").
Proof.
  apply (parse_tags_lookup (sample_profile_two "MS00")).
  vm_compute. reflexivity.
Defined.

Lemma generate_body_result_witness :
  generate_body sample_tags_odd = Ok sample_body_odd /\
  len sample_body_odd
  = 4 + 12 * len sample_tags_odd + data_len sample_tags_odd /\
  len sample_body_odd mod 4 = 0.
Proof.
  assert (Hk : Forall (fun kv => List.length (fst kv) = 4%nat) sample_tags_odd)
    by (repeat constructor).
  destruct (generate_body_result sample_tags_odd Hk) as (_ & _ & H).
  split; [vm_compute; reflexivity|].
  apply H. vm_compute. reflexivity.
Defined.

Lemma created_table_entries_witness :
  entry_sig sample_created_odd (Z.of_nat 1) = b "desc" /\
  entry_offset sample_created_odd (Z.of_nat 1)
  = 132 + 12 * len sample_tags_odd + data_len (firstn 1 sample_tags_odd) /\
  entry_offset sample_created_odd (Z.of_nat 1) mod 4 = 0 /\
  entry_size sample_created_odd (Z.of_nat 1) = len (b "abcde") /\
  entry_data sample_created_odd (Z.of_nat 1) = b "abcde" /\
  slice (entry_offset sample_created_odd (Z.of_nat 1) + len (b "abcde"))
    (entry_offset sample_created_odd (Z.of_nat 1) + pad4 (len (b "abcde")))
    sample_created_odd
  = repeat x00 (Z.to_nat (pad4 (len (b "abcde")) - len (b "abcde"))) /\
  entry_offset sample_created_odd (Z.of_nat 1) + pad4 (len (b "abcde"))
  <= len sample_created_odd.
Proof.
  apply (created_table_entries (sample_header 176) sample_body_odd
           sample_created_odd sample_tags_odd 1 (b "desc") (b "abcde")).
  - split.
    + apply NoDup_cons; [cbn; intros [H|[]]; discriminate H|].
      apply NoDup_cons; [intros [] | apply NoDup_nil].
    + repeat constructor.
  - reflexivity.
  - vm_compute. reflexivity.
  - vm_compute. reflexivity.
  - reflexivity.
Defined.

Lemma check_signature_reads_header_witness :
  check_signature sample_profile
  = check_signature (sample_header 176 ++ repeat x00 48).
Proof.
  apply check_signature_reads_header; vm_compute; reflexivity.
Defined.

Lemma parse_wcs_cases_witness :
  parse_wcs [] = Raise StructError /\
  parse_wcs (sample_wcs "MS11") = Raise AssertionError /\
  parse_wcs (sample_wcs "MS10")
  = Ok (slice (u32_at (sample_wcs "MS10") 8)
          (u32_at (sample_wcs "MS10") 8 + u32_at (sample_wcs "MS10") 12)
          (sample_wcs "MS10"),
        slice (u32_at (sample_wcs "MS10") 16)
          (u32_at (sample_wcs "MS10") 16 + u32_at (sample_wcs "MS10") 20)
          (sample_wcs "MS10"),
        slice (u32_at (sample_wcs "MS10") 24)
          (u32_at (sample_wcs "MS10") 24 + u32_at (sample_wcs "MS10") 28)
          (sample_wcs "MS10")) /\
  (len (@nil byte) <= Z.min (u32_at (sample_wcs "MS10") 12)
                        (len (sample_wcs "MS10")) /\
   len (@nil byte) <= Z.min (u32_at (sample_wcs "MS10") 20)
                        (len (sample_wcs "MS10")) /\
   len (@nil byte) <= Z.min (u32_at (sample_wcs "MS10") 28)
                        (len (sample_wcs "MS10"))).
Proof.
  split; [|split; [|split]].
  - apply (proj1 (parse_wcs_cases [])). reflexivity.
  - apply (proj1 (proj2 (parse_wcs_cases (sample_wcs "MS11")))).
    + vm_compute. discriminate.
    + vm_compute. discriminate.
  - apply (proj1 (proj2 (proj2 (parse_wcs_cases (sample_wcs "MS10"))))).
    + vm_compute. discriminate.
    + reflexivity.
  - apply (proj2 (proj2 (proj2 (parse_wcs_cases (sample_wcs "MS10"))))
             [] [] []).
    vm_compute. reflexivity.
Defined.

Lemma extract_curve_present_witness :
  extract_curve sample_float (sample_curves [sample_red]) (qname wcs "RedTRC")
  = (gamma <- get_float sample_float (attrib sample_red) "Gamma" 1 ;;
     offset <- get_float sample_float (attrib sample_red) "Offset1" 0 ;;
     gain <- get_float sample_float (attrib sample_red) "Gain" 1 ;;
     Ok [gamma; offset; gain]) /\
  extract_curve sample_float (sample_curves [sample_red; sample_green_slope])
    (qname wcs "GreenTRC") = Raise AssertionError.
Proof.
  split.
  - apply (proj1 (extract_curve_present sample_float
                    (sample_curves [sample_red]) sample_red
                    (qname wcs "RedTRC") eq_refl)).
    repeat constructor.
  - apply (proj2 (extract_curve_present sample_float
                    (sample_curves [sample_red; sample_green_slope])
                    sample_green_slope (qname wcs "GreenTRC") eq_refl)).
    intros H. inversion H as [|? ? _ H']. inversion H' as [|? ? Hs _].
    cbn in Hs. destruct Hs as [Hs|[Hs|[Hs|[]]]]; discriminate Hs.
Defined.

Lemma extracted_vcgt_shape_witness :
  (exists r g b,
      sample_calib = [("r", r); ("g", g); ("b", b)]%string /\
      List.length r = 3%nat /\ List.length g = 3%nat /\
      List.length b = 3%nat) /\
  generate_vcgt sample_calib <> Raise KeyError /\
  (forall data,
      generate_vcgt sample_calib = Ok data ->
      len data = 48 /\ slice 0 12 data = vcgt_prefix).
Proof.
  apply (extracted_vcgt_shape sample_decode
           (sample_fromstring sample_document) sample_float []).
  vm_compute. reflexivity.
Defined.

Lemma invalid_header_rejected_witness :
  sample_main sample_document (repeat x00 84)
  = mkOutcome (Returned 1) ["Invalid ICC profile"%string] None.
Proof.
  apply invalid_header_rejected.
  - vm_compute. discriminate.
  - intros [H _]. vm_compute in H. discriminate H.
Defined.

Lemma vcgt_record_rejected_witness :
  sample_main sample_document (sample_profile_two "vcgt")
  = mkOutcome (Returned 1) ["Profile already has VCGT"%string] None.
Proof.
  apply (vcgt_record_rejected sample_decode (sample_fromstring sample_document)
           sample_float (sample_profile_two "vcgt") 1).
  - vm_compute. reflexivity.
  - vm_compute. discriminate.
  - split; vm_compute; [discriminate | reflexivity].
  - vm_compute. reflexivity.
Defined.

Lemma output_header_preserved_witness :
  slice 8 84 sample_output = slice 8 84 sample_profile.
Proof.
  apply (output_header_preserved sample_decode
           (sample_fromstring sample_document) sample_float
           sample_profile sample_output).
  - vm_compute. reflexivity.
  - vm_compute. discriminate.
  - vm_compute. discriminate.
  - vm_compute. discriminate.
Defined.

Lemma conversion_succeeds_witness :
  exists out,
    sample_main sample_document sample_profile
    = mkOutcome (Returned 0) [] (Some out) /\
    len out = 192 + 12 * len sample_tags + data_len sample_tags.
Proof.
  apply (conversion_succeeds sample_decode (sample_fromstring sample_document)
           sample_float sample_profile (sample_wcs "MS10") [] [] []
           sample_tags sample_calib
           (vcgt_prefix ++ words [144177; 0; 65535; 65535; 0; 65535;
                                  65535; 0; 65535]));
    vm_compute; reflexivity.
Defined.

Lemma vcgt_words_read_back_witness :
  exists data,
    generate_vcgt sample_calib = Ok data /\
    len data
    = 12 + 4 * len ([float_2_2; float_0; float_1]
                      ++ identity_curve ++ identity_curve) /\
    forall k n,
      nth_error [144177; 0; 65535; 65535; 0; 65535; 65535; 0; 65535] k
      = Some n ->
      u32_at data (12 + 4 * Z.of_nat k) = n.
Proof.
  apply (vcgt_words_read_back sample_calib [float_2_2; float_0; float_1]
           identity_curve identity_curve); vm_compute; reflexivity.
Defined.

(** ** Values the encoder refuses *)

(** C7, amended: when, for some value, [int(v * 65535)] lies outside the
    unsigned 32-bit range, or the product is infinite or NaN, the encoder
    produces no bytes and nothing wraps: it raises [struct.error] for the
    packing of an integer out of range, [OverflowError] for an infinite
    product and [ValueError] for NaN, and stores every product that
    truncates into the range; a run whose extracted curves hold such a
    value ends with that exception, uncaught, before the output file is
    opened. *)
Theorem out_of_range_values_raise :
  (forall (calib_data : calib_t) (r g b : list float),
      dict_get string_dec "r"%string calib_data = Some r ->
      dict_get string_dec "g"%string calib_data = Some g ->
      dict_get string_dec "b"%string calib_data = Some b ->
      Exists (fun v =>
                match int_of_float (float_mul v (float_of_int 65535)) with
                | Ok n => n < 0 \/ 2 ^ 32 <= n
                | Raise _ => True
                end) (r ++ g ++ b) ->
      exists e, generate_vcgt calib_data = Raise e /\
                (e = StructError \/ e = OverflowError \/ e = ValueError)) /\
  (forall (v : float) (vs : list float) (data : bytes),
      generate_vcgt_values (v :: vs) data
      = match float_mul v (float_of_int 65535) with
        | S754_infinity _ => Raise OverflowError
        | S754_nan => Raise ValueError
        | x =>
            n <- int_of_float x ;;
            if in_u32 n
            then generate_vcgt_values vs (data ++ int_to_bytes 4 n)
            else Raise StructError
        end) /\
  (forall (decode_utf16 : bytes -> result string)
          (ET_fromstring : string -> result Element)
          (float_of_str : string -> result float)
          (prof_data wcs_data cdmp_data camp_data gmmp_data : bytes)
          (tags : tags_t) (calib_data : calib_t),
      check_signature prof_data = Ok true ->
      parse_tags prof_data = Ok tags ->
      dict_mem bytes_eq_dec vcgt tags = false ->
      dict_get bytes_eq_dec MS00 tags = Some wcs_data ->
      parse_wcs wcs_data = Ok (cdmp_data, camp_data, gmmp_data) ->
      extract_calib_data decode_utf16 ET_fromstring float_of_str cdmp_data
      = Ok calib_data ->
      Exists (fun v =>
                match int_of_float (float_mul v (float_of_int 65535)) with
                | Ok n => n < 0 \/ 2 ^ 32 <= n
                | Raise _ => True
                end) (List.concat (map snd calib_data)) ->
      exists e,
        main decode_utf16 ET_fromstring float_of_str prof_data
        = mkOutcome (Uncaught e) [] None /\
        (e = StructError \/ e = OverflowError \/ e = ValueError)).
Proof.
  assert (Henc : forall (calib_data : calib_t) (r g b : list float),
             dict_get string_dec "r"%string calib_data = Some r ->
             dict_get string_dec "g"%string calib_data = Some g ->
             dict_get string_dec "b"%string calib_data = Some b ->
             Exists (fun v =>
                       match int_of_float
                               (float_mul v (float_of_int 65535)) with
                       | Ok n => n < 0 \/ 2 ^ 32 <= n
                       | Raise _ => True
                       end) (r ++ g ++ b) ->
             exists e, generate_vcgt calib_data = Raise e /\
                       (e = StructError \/ e = OverflowError
                        \/ e = ValueError)).
  { intros calib_data r g b Hr Hg Hb H.
    rewrite (generate_vcgt_eq _ _ _ _ Hr Hg Hb).
    apply scaled_all_out_of_range in H as [e He].
    exists e. rewrite He. split; [reflexivity|].
    now apply scaled_all_raises in He. }
  split; [exact Henc|]. split.
  - intros v vs data. cbn [generate_vcgt_values].
    destruct (float_mul v (float_of_int 65535)) as [s|s| |s m x];
      cbn [int_of_float bind pack]; try reflexivity.
    destruct (in_u32 _); cbn [bind]; [|reflexivity]. now rewrite app_nil_r.
  - intros decode_utf16 ET_fromstring float_of_str prof_data wcs_data
      cdmp_data camp_data gmmp_data tags calib_data
      Hsig Ht Hv Hw Hp He Hbad.
    destruct (extract_calib_data_channels _ _ _ _ _ He)
      as (r & g & b & E & _).
    subst calib_data. cbn [map snd List.concat] in Hbad.
    rewrite app_nil_r in Hbad.
    destruct (Henc [("r", r); ("g", g); ("b", b)]%string r g b
                eq_refl eq_refl eq_refl Hbad) as (e & Hg & Hk).
    exists e. split; [|exact Hk].
    unfold main. rewrite Hsig, Ht, Hv, Hw, Hp. cbn [bind].
    rewrite He. cbn [bind]. rewrite Hg. reflexivity.
Qed.

Lemma out_of_range_values_raise_witness :
  (exists e,
      generate_vcgt [("r", [float_of_int 65538; float_0; float_1]);
                     ("g", identity_curve); ("b", identity_curve)]%string
      = Raise e /\
      (e = StructError \/ e = OverflowError \/ e = ValueError)) /\
  (exists e,
      main sample_decode (sample_fromstring sample_document_big)
        sample_float_wide sample_profile
      = mkOutcome (Uncaught e) [] None /\
      (e = StructError \/ e = OverflowError \/ e = ValueError)).
Proof.
  split.
  - apply (proj1 out_of_range_values_raise _
             [float_of_int 65538; float_0; float_1]
             identity_curve identity_curve); try reflexivity.
    apply Exists_cons_hd. vm_compute. right. discriminate.
  - apply (proj2 (proj2 out_of_range_values_raise) sample_decode
             (sample_fromstring sample_document_big) sample_float_wide
             sample_profile (sample_wcs "MS10") [] [] [] sample_tags
             [("r", [float_of_int 65538; float_0; float_1]);
              ("g", identity_curve); ("b", identity_curve)]%string);
      try (vm_compute; reflexivity).
    apply Exists_cons_hd. vm_compute. right. discriminate.
Defined.
